(** * Silent Scalper: verification of the two Lambda handlers

    The development embeds the Python sources
      - [lambda/FileProcessor/lambda_function.py]
      - [lambda/GetPresignedURL/lambda_function.py]
    as Rocq functions and proves (or refutes) the properties the
    specification states about them.

    Layout:
      - [Py]: the fragment of Python the handlers use (text, UTF-8,
        JSON-shaped values, exceptions, the operators [in], [x[k]], [not]);
      - [FileProcessor]: [validate_file_content], [extract_metadata],
        [lambda_handler] and the log of AWS calls a run performs;
      - [GetPresignedURL]: [lambda_handler] of the upload-credential endpoint.

    What lies outside the repository (CPython's [json], the Unicode case
    tables, boto3, the clock, [uuid]) enters through the two interfaces
    [Py.Runtime] and [FileProcessor.Aws] / [GetPresignedURL.Aws]: every
    theorem holds for all their implementations. *)

From Stdlib Require Import ZArith NArith List Ascii String DecimalString PrimFloat Lia.
From stdpp Require Import base option list gmap.

#[local] Set Warnings "-register-all".
#[local] Open Scope N_scope.

(* ===================================================================== *)
(** * Python values *)
(* ===================================================================== *)
Module Py.

(** A Python [str] is a sequence of Unicode code points. *)
Abbreviation pystr := (list N).

(** Source literals: [lit "job_id"] is the Python literal ['job_id']. *)
Definition lit (s : string) : pystr := N_of_ascii <$> list_ascii_of_string s.

(** ** Exceptions: the class decides which [except] clause catches,
       [exn_str e] is [str(e)]. Every class below derives from [Exception]. *)
Inductive exn_class :=
| JSONDecodeError | KeyError | IndexError | TypeError | AttributeError
| UnicodeDecodeError | UnicodeEncodeError | ClientError | OtherException.

Record exn := Exn { exn_cls : exn_class; exn_str : pystr }.

Definition is_JSONDecodeError (e : exn) : bool :=
  match exn_cls e with JSONDecodeError => true | _ => false end.
Definition is_KeyError (e : exn) : bool :=
  match exn_cls e with KeyError => true | _ => false end.

(** Computations that may raise. *)
Definition bind {A B} (m : exn + A) (k : A -> exn + B) : exn + B :=
  match m with inl e => inl e | inr a => k a end.
Notation "'let!' x := m 'in' k" := (bind m (fun x => k))
  (at level 10, x name, m at level 100, k at level 200).

(** ** Values built by [json.loads] and by dict/list displays. *)
Inductive pyval :=
| PNone
| PBool (b : bool)
| PInt (z : Z)
| PFloat (f : float)
| PStr (s : pystr)
| PList (l : list pyval)
| PDict (d : gmap pystr pyval).

(** Truth value, as tested by [if] and [not]. *)
Definition truthy (v : pyval) : bool :=
  match v with
  | PNone => false
  | PBool b => b
  | PInt z => negb (z =? 0)%Z
  | PFloat f => negb (PrimFloat.eqb f 0%float)
  | PStr s => negb (bool_decide (s = []))
  | PList l => match l with [] => false | _ => true end
  | PDict d => negb (bool_decide (d = ∅))
  end.

(** ** Text operations *)

(** [needle in hay] on two [str]. *)
Fixpoint startswith (s p : pystr) {struct p} : bool :=
  match p, s with
  | [], _ => true
  | a :: p', b :: s' => (a =? b) && startswith s' p'
  | _ :: _, [] => false
  end.

Fixpoint contains (needle hay : pystr) : bool :=
  startswith hay needle ||
  match hay with [] => false | _ :: t => contains needle t end.

(** [s.split(sep, 1)] for a one-character separator: cut at the first
    occurrence of [sep], or the whole string when there is none. *)
Fixpoint split1 (sep : N) (s : pystr) : list pystr :=
  match s with
  | [] => [[]]
  | c :: t =>
      if c =? sep then [[]; t]
      else match split1 sep t with
           | h :: r => (c :: h) :: r
           | [] => [[c]]
           end
  end.

(** [l[-1]]; [split1] never returns the empty list, where Python would
    raise [IndexError]. *)
Definition last_item (l : list pystr) : pystr := default [] (last l).

(** [str.lower()]. ASCII letters are mapped as usual. The lowering of a
    code point above U+007F comes from the Unicode tables of the
    interpreter: it may be several code points long (U+0130) and may look
    at the neighbours (final sigma), so it is given the text before and
    after. *)
Definition ascii_lower (c : N) : N :=
  if (65 <=? c) && (c <=? 90) then c + 32 else c.

Section Lower.
Variable unicode_lower : pystr -> N -> pystr -> pystr.

Fixpoint lower_from (before s : pystr) : pystr :=
  match s with
  | [] => []
  | c :: t =>
      (if c <? 128 then [ascii_lower c] else unicode_lower before c t)
        ++ lower_from (before ++ [c]) t
  end.

Definition lower (s : pystr) : pystr := lower_from [] s.
End Lower.

(** ** UTF-8 *)

(** [bytes.decode('utf-8')], strict: the well-formed byte sequences of the
    Unicode standard (no overlong forms, no surrogates, nothing above
    U+10FFFF); anything else raises [UnicodeDecodeError]. [None] stands
    for the raise, the message is attached by [decode_utf8]. *)
Definition is_cont (b : N) : bool := (0x80 <=? b) && (b <=? 0xBF).

Fixpoint utf8_decode (bs : list N) : option pystr :=
  match bs with
  | [] => Some []
  | b0 :: r0 =>
      if b0 <? 0x80 then cons b0 <$> utf8_decode r0
      else if (0xC2 <=? b0) && (b0 <=? 0xDF) then
        match r0 with
        | b1 :: r1 =>
            if is_cont b1
            then cons ((b0 - 0xC0) * 0x40 + (b1 - 0x80)) <$> utf8_decode r1
            else None
        | _ => None
        end
      else if (0xE0 <=? b0) && (b0 <=? 0xEF) then
        match r0 with
        | b1 :: b2 :: r2 =>
            if is_cont b1 && is_cont b2
               && negb ((b0 =? 0xE0) && (b1 <? 0xA0))
               && negb ((b0 =? 0xED) && (0xA0 <=? b1))
            then cons ((b0 - 0xE0) * 0x1000 + (b1 - 0x80) * 0x40 + (b2 - 0x80))
                   <$> utf8_decode r2
            else None
        | _ => None
        end
      else if (0xF0 <=? b0) && (b0 <=? 0xF4) then
        match r0 with
        | b1 :: b2 :: b3 :: r3 =>
            if is_cont b1 && is_cont b2 && is_cont b3
               && negb ((b0 =? 0xF0) && (b1 <? 0x90))
               && negb ((b0 =? 0xF4) && (0x90 <=? b1))
            then cons ((b0 - 0xF0) * 0x40000 + (b1 - 0x80) * 0x1000
                       + (b2 - 0x80) * 0x40 + (b3 - 0x80))
                   <$> utf8_decode r3
            else None
        | _ => None
        end
      else None
  end.

(** [len(s.encode('utf-8'))], strict: a lone surrogate raises
    [UnicodeEncodeError] ([None]). *)
Definition utf8_width (c : N) : option N :=
  if c <? 0x80 then Some 1
  else if c <? 0x800 then Some 2
  else if (0xD800 <=? c) && (c <=? 0xDFFF) then None
  else if c <? 0x10000 then Some 3
  else Some 4.

Fixpoint utf8_len (s : pystr) : option N :=
  match s with
  | [] => Some 0
  | c :: t =>
      match utf8_width c, utf8_len t with
      | Some w, Some n => Some (w + n)
      | _, _ => None
      end
  end.

(** ** What the interpreter and its standard library provide *)

(** The operations that can raise: [k in v], [v[k]], [v.get(k)],
    [json.loads(v)], [s.encode('utf-8')] (also when [print] encodes its
    text), [v.split(..)]. *)
Inductive operation :=
  OpIn | OpSubscript | OpGet | OpLoads | OpEncode | OpSplit.

Class Runtime := {
  (** lowering of one code point above U+007F, see [lower] *)
  unicode_lower : pystr -> N -> pystr -> pystr;
  (** [json.loads(s)] on a [str]; malformed documents raise
      [JSONDecodeError] *)
  json_loads : pystr -> exn + pyval;
  (** [json.dumps(v)] *)
  json_dumps : pyval -> pystr;
  (** [str(v)] for a value that is not a [str] *)
  str_other : pyval -> pystr;
  (** [str(e)] of the error an operation raises when applied to [v] *)
  error_text : operation -> pyval -> pystr;
  (** [str(e)] of the [UnicodeDecodeError] raised on the bytes [b] *)
  decode_error_text : list N -> pystr;
  (** [str(uuid.uuid4())] *)
  uuid4 : pystr;
}.

Section Operators.
Context `{Runtime}.

Definition raise {A} (c : exn_class) (op : operation) (v : pyval) : exn + A :=
  inl (Exn c (error_text op v)).

(** [str(v)] *)
Definition py_str (v : pyval) : pystr :=
  match v with PStr s => s | _ => str_other v end.

(** [k in v] for a [str] [k]: key of a dict, element of a list,
    substring of a [str]; the other values are not containers. *)
Definition py_in (k : pystr) (v : pyval) : exn + bool :=
  match v with
  | PDict d => inr (bool_decide (is_Some (d !! k)))
  | PList l =>
      inr (existsb (fun x => match x with
                             | PStr s => bool_decide (s = k)
                             | _ => false
                             end) l)
  | PStr s => inr (contains k s)
  | _ => raise TypeError OpIn v
  end.

(** [v[k]] for a [str] [k]: only a dict can be indexed by a [str]. *)
Definition py_getitem (v : pyval) (k : pystr) : exn + pyval :=
  match v with
  | PDict d =>
      match d !! k with
      | Some x => inr x
      | None => raise KeyError OpSubscript (PStr k)
      end
  | _ => raise TypeError OpSubscript v
  end.

(** [v[0]]. The keys of a dict that came from JSON are [str], so [0] is
    never one of them. *)
Definition py_getitem0 (v : pyval) : exn + pyval :=
  match v with
  | PList (x :: _) => inr x
  | PList [] => raise IndexError OpSubscript v
  | PStr (c :: _) => inr (PStr [c])
  | PStr [] => raise IndexError OpSubscript v
  | PDict _ => raise KeyError OpSubscript (PInt 0)
  | _ => raise TypeError OpSubscript v
  end.

(** [v.get(k)]: only a dict has the method. *)
Definition py_get (v : pyval) (k : pystr) : exn + pyval :=
  match v with
  | PDict d => inr (default PNone (d !! k))
  | _ => raise AttributeError OpGet v
  end.

(** [s.lower()] *)
Definition py_lower (s : pystr) : pystr := lower unicode_lower s.

(** [b.decode('utf-8')] and [len(s.encode('utf-8'))] *)
Definition decode_utf8 (b : list N) : exn + pystr :=
  match utf8_decode b with
  | Some s => inr s
  | None => inl (Exn UnicodeDecodeError (decode_error_text b))
  end.

Definition encoded_len (s : pystr) : exn + Z :=
  match utf8_len s with
  | Some n => inr (Z.of_N n)
  | None => raise UnicodeEncodeError OpEncode (PStr s)
  end.

(** [print(s)]: the text is written to the standard output encoded as
    UTF-8, so a lone surrogate in it raises [UnicodeEncodeError]. *)
Definition py_print (s : pystr) : exn + unit :=
  match utf8_len s with
  | Some _ => inr tt
  | None => raise UnicodeEncodeError OpEncode (PStr s)
  end.
End Operators.

(** Text that [print] and [encode] accept: no lone surrogate. *)
Definition printable (s : pystr) : Prop := is_Some (utf8_len s).

(** [str(n)] for a length and [str(b)] for a bool, as an f-string
    interpolates them. *)
Definition decimal (n : nat) : pystr :=
  lit (NilEmpty.string_of_uint (Nat.to_uint n)).
Definition bool_text (b : bool) : pystr :=
  if b then lit "True" else lit "False".

End Py.

(* ===================================================================== *)
(** * lambda/FileProcessor/lambda_function.py *)
(* ===================================================================== *)
Module FileProcessor.
Import Py.

(** ** The AWS side *)

(** The calls a run can issue. [S3DeleteObject] is part of the vocabulary
    so that "never deletes" is a statement about runs and not about the
    type: the source has the call commented out. [get_object] is called
    with whatever the notification holds as bucket name and key, strings
    or not. *)
Inductive call :=
| S3GetObject (Bucket Key : pyval)
| S3CopyObject (Bucket CopySource_Bucket CopySource_Key Key : pystr)
| S3DeleteObject (Bucket Key : pystr)
| DynamoPutItem (TableName : pystr) (Item : gmap pystr pyval).

(** One entry of the log of a run: the call and the exception it raised,
    if any. *)
Record io_event := IO { io_call : call; io_raised : option exn }.

(** boto3 and the clock. Each answer may depend on everything that
    happened before in the run. *)
Class Aws := {
  (** [s3_client.get_object(Bucket=b, Key=k)['Body'].read()], for two
      strings *)
  get_object_body : list io_event -> pystr -> pystr -> exn + list N;
  (** the exception [get_object] raises, before anything is sent, when
      [Bucket] or [Key] is not a string (botocore validates the
      parameters of every call) *)
  get_object_rejects : pyval -> pyval -> exn;
  (** [dynamodb_table.put_item(Item=i)] *)
  put_item : list io_event -> gmap pystr pyval -> option exn;
  (** [s3_client.copy_object(Bucket=b, CopySource={'Bucket': sb, 'Key': sk}, Key=k)] *)
  copy_object : list io_event -> pystr -> pystr -> pystr -> pystr -> option exn;
  (** [datetime.now().isoformat()] *)
  now_isoformat : list io_event -> pystr;
}.

(** The response dict [{'statusCode': .., 'body': ..}]. *)
Record response := Response { statusCode : Z; body : pystr }.

(** How an invocation ends. *)
Inductive outcome :=
| Returned (r : response)
| Raised (e : exn).

(** The variable the [except] clause reads back, and the log. *)
Record state := State { file_content : pystr; log : list io_event }.

Definition M (A : Type) : Type := state -> (exn + A) * state.

Definition ret {A} (a : A) : M A := fun st => (inr a, st).
Definition lift {A} (m : exn + A) : M A := fun st => (m, st).
Definition seq {A B} (m : M A) (k : A -> M B) : M B :=
  fun st => match m st with
            | (inl e, st') => (inl e, st')
            | (inr a, st') => k a st'
            end.
Notation "'run' x := m 'in' k" := (seq m (fun x => k))
  (at level 10, x name, m at level 100, k at level 200).

Definition record_call (c : call) (r : option exn) (st : state) : state :=
  State (file_content st) (log st ++ [IO c r]).

(** A computation that does not assign [file_content]. *)
Definition keeps_content {A} (m : M A) : Prop :=
  forall st r st', m st = (r, st') -> file_content st' = file_content st.

Section Source.
Context `{Runtime} `{Aws}.

(** Module globals, read from the environment at import time. *)
Variables S3_QUARANTINE_BUCKET_NAME DYNAMODB_TABLE_NAME : pystr.

(** *** I/O primitives *)
Definition s3_get_object (b k : pystr) : M (list N) := fun st =>
  let r := get_object_body (log st) b k in
  (r, record_call (S3GetObject (PStr b) (PStr k))
        (match r with inl e => Some e | inr _ => None end) st).

Definition dynamodb_put_item (item : gmap pystr pyval) : M unit := fun st =>
  let r := put_item (log st) item in
  (match r with Some e => inl e | None => inr tt end,
   record_call (DynamoPutItem DYNAMODB_TABLE_NAME item) r st).

Definition s3_copy_object (b sb sk k : pystr) : M unit := fun st =>
  let r := copy_object (log st) b sb sk k in
  (match r with Some e => inl e | None => inr tt end,
   record_call (S3CopyObject b sb sk k) r st).

Definition datetime_now : M pystr := fun st => (inr (now_isoformat (log st)), st).

Definition assign_file_content (s : pystr) : M unit := fun st =>
  (inr tt, State s (log st)).

(** *** [validate_file_content] (lines 24-38) *)
Definition validate_file_content (file_content : pystr) : bool * pystr :=
  match file_content with
  | [] => (false, lit "File is empty")
  | _ =>
      if negb (contains (lit "job_id") (py_lower file_content))
      then (false, lit "Content missing 'job_id' keyword")
      else (true, lit "Valid")
  end.

(** *** [extract_metadata] (lines 40-69) *)

(** Lines 46-56: the [try] around [json.loads] and the two lookups;
    [except json.JSONDecodeError: pass] keeps the default. *)
Definition job_id_of (file_content : pystr) : exn + pyval :=
  let attempt :=
    let! data := json_loads file_content in
    let! has_job_id := py_in (lit "job_id") data in
    if has_job_id then py_getitem data (lit "job_id")
    else
      let! has_JobId := py_in (lit "JobId") data in
      if has_JobId then py_getitem data (lit "JobId")
      else inr (PStr (lit "UNKNOWN"))
  in
  match attempt with
  | inl e => if is_JSONDecodeError e then inr (PStr (lit "UNKNOWN")) else inl e
  | inr v => inr v
  end.

(** Line 60, also line 155. *)
Definition original_filename_of (s3_key : pystr) : pystr :=
  if contains (lit "-") s3_key
  then last_item (split1 (N_of_ascii "-") s3_key)
  else s3_key.

(** [now] is what [datetime.now().isoformat()] returns at line 68. *)
Definition extract_metadata (file_content s3_key now : pystr)
  : exn + gmap pystr pyval :=
  let! job_id := job_id_of file_content in
  let original_filename := original_filename_of s3_key in
  let! size := encoded_len file_content in
  inr (<[lit "JobId" := PStr (py_str job_id)]>
      (<[lit "OriginalFileName" := PStr original_filename]>
      (<[lit "S3Key" := PStr s3_key]>
      (<[lit "FileSize" := PInt size]>
      (<[lit "ProcessingTimestamp" := PStr now]> ∅))))).

(** *** [lambda_handler] (lines 71-169)

    The [print]s that interpolate text of the event or of the object are
    part of the model: each can raise. Three groups of [print] are not:
    line 77 prints [json.dumps(event)], which is ASCII whatever the event
    holds; line 82 prints a constant; lines 143, 161 and 163 print the
    key, which line 93 has printed before, and [str(e)], in which the
    interpreter and botocore write an offending character escaped. *)

(** The texts printed at lines 93, 100, 104, 115, 119 and 128. *)
Definition line_93 (source_bucket_name s3_key : pyval) : pystr :=
  lit "Attempting to process file: s3://" ++ py_str source_bucket_name
    ++ lit "/" ++ py_str s3_key.
Definition line_100 (s3_key file_content : pystr) : pystr :=
  lit "Successfully read file content for " ++ s3_key
    ++ lit ". Content length: " ++ decimal (length file_content)
    ++ lit " bytes.".
Definition line_104 (s3_key : pystr) (is_valid : bool)
    (validation_message : pystr) : pystr :=
  lit "File validation result for " ++ s3_key ++ lit ": Valid="
    ++ bool_text is_valid ++ lit ", Message='" ++ validation_message ++ lit "'".
Definition line_115 (job_id : pyval) (s3_key : pystr) : pystr :=
  lit "Metadata stored in DynamoDB for JobId: " ++ py_str job_id
    ++ lit ", S3Key: " ++ s3_key.
Definition line_119 (s3_key : pystr) : pystr :=
  lit "File " ++ s3_key ++ lit " is invalid. Copying to quarantine bucket: "
    ++ S3_QUARANTINE_BUCKET_NAME.
Definition line_128 (s3_key : pystr) : pystr :=
  lit "File " ++ s3_key ++ lit " copied to quarantine.".

(** Lines 96-140, the body of the [try]. *)
Definition try_block (source_bucket_name s3_key : pystr) : M response :=
  (* 1. read *)
  run raw := s3_get_object source_bucket_name s3_key in
  run text := lift (decode_utf8 raw) in
  run _ := assign_file_content text in
  run _ := lift (py_print (line_100 s3_key text)) in
  (* 2. validate *)
  let '(is_valid, validation_message) := validate_file_content text in
  run _ := lift (py_print (line_104 s3_key is_valid validation_message)) in
  (* 3. extract *)
  run now := datetime_now in
  run metadata := lift (extract_metadata text s3_key now) in
  let metadata :=
    <[lit "ValidationStatus" :=
        PStr (if is_valid then lit "VALID" else lit "INVALID")]> metadata in
  let metadata := <[lit "ValidationMessage" := PStr validation_message]> metadata in
  let metadata := <[lit "SourceBucket" := PStr source_bucket_name]> metadata in
  (* 4. store *)
  run _ := dynamodb_put_item metadata in
  run stored_job_id := lift (py_getitem (PDict metadata) (lit "JobId")) in
  run _ := lift (py_print (line_115 stored_job_id s3_key)) in
  (* 5. quarantine *)
  run _ := (if negb is_valid
            then
              run _ := lift (py_print (line_119 s3_key)) in
              run _ := s3_copy_object S3_QUARANTINE_BUCKET_NAME
                         source_bucket_name s3_key (lit "invalid/" ++ s3_key) in
              lift (py_print (line_128 s3_key))
            else ret tt) in
  run job_id := lift (py_getitem (PDict metadata) (lit "JobId")) in
  ret (Response 200
         (json_dumps (PDict
            (<[lit "message" := PStr (lit "File processed successfully")]>
            (<[lit "s3Key" := PStr s3_key]>
            (<[lit "isValid" := PBool is_valid]>
            (<[lit "validationMessage" := PStr validation_message]>
            (<[lit "jobId" := job_id]> ∅)))))))).

(** Lines 149-158. *)
Definition failure_metadata (source_bucket_name s3_key now : pystr)
    (e : exn) (size : Z) : gmap pystr pyval :=
  <[lit "JobId" := PStr s3_key]>
  (<[lit "Timestamp" := PStr now]>
  (<[lit "S3Key" := PStr s3_key]>
  (<[lit "ValidationStatus" := PStr (lit "PROCESSING_FAILED")]>
  (<[lit "ValidationMessage" := PStr (exn_str e)]>
  (<[lit "OriginalFileName" := PStr (original_filename_of s3_key)]>
  (<[lit "FileSize" := PInt size]>
  (<[lit "SourceBucket" := PStr source_bucket_name]> ∅))))))).

(** Lines 142-169, the [except Exception as e] clause. An exception
    raised while the dict display is evaluated leaves the handler; one
    raised by the inner [put_item] is printed and dropped. *)
Definition except_block (source_bucket_name s3_key : pystr) (e : exn)
    (st : state) : outcome * state :=
  let now := now_isoformat (log st) in
  match (match file_content st with
         | [] => inr 0%Z
         | _ => encoded_len (file_content st)
         end) with
  | inl e' => (Raised e', st)
  | inr size =>
      let '(_, st') :=
        dynamodb_put_item
          (failure_metadata source_bucket_name s3_key now e size) st in
      (Returned (Response 500
         (json_dumps (PDict
            (<[lit "message" := PStr (lit "Error processing file " ++ s3_key)]>
            (<[lit "error" := PStr (exn_str e)]> ∅))))), st')
  end.

(** Lines 81-91: the guard on [Records] and the four subscripts, all of
    them before the [try]. [None]: no records. *)
Definition first_record (event : pyval) : exn + option (pyval * pyval) :=
  let! has_records := py_in (lit "Records") event in
  let! no_records :=
    if negb has_records then inr true
    else let! records := py_getitem event (lit "Records") in
         inr (negb (truthy records)) in
  if no_records then inr None
  else
    let! records := py_getitem event (lit "Records") in
    let! record := py_getitem0 records in
    let! s3_event := py_getitem record (lit "s3") in
    let! bucket := py_getitem s3_event (lit "bucket") in
    let! source_bucket_name := py_getitem bucket (lit "name") in
    let! object := py_getitem s3_event (lit "object") in
    let! s3_key := py_getitem object (lit "key") in
    inr (Some (source_bucket_name, s3_key)).

Definition no_records_response : response :=
  Response 400
    (json_dumps (PDict
       (<[lit "message" := PStr (lit "No S3 records found in the event")]> ∅))).

Definition process (source_bucket_name s3_key : pystr)
  : outcome * list io_event :=
  match try_block source_bucket_name s3_key (State [] []) with
  | (inr r, st) => (Returned r, log st)
  | (inl e, st) =>
      let '(o, st') := except_block source_bucket_name s3_key e st in
      (o, log st')
  end.

(** Line 155 for a key of any type: [s3_key.split('-', 1)[-1] if '-' in
    s3_key else s3_key]. Only a [str] has [split]. *)
Definition original_filename (s3_key : pyval) : exn + pyval :=
  match s3_key with
  | PStr k => inr (PStr (original_filename_of k))
  | _ =>
      let! has_dash := py_in (lit "-") s3_key in
      if has_dash then raise AttributeError OpSplit s3_key else inr s3_key
  end.

(** The run for a bucket name or a key that is not a string: the
    [get_object] of line 98 raises, [file_content] is still empty, and
    the [except] clause builds the failure record of lines 149-158 from
    the values as they are; line 155 can raise out of the handler. *)
Definition process_rejected (source_bucket_name s3_key : pyval)
  : outcome * list io_event :=
  let e := get_object_rejects source_bucket_name s3_key in
  let tr := [IO (S3GetObject source_bucket_name s3_key) (Some e)] in
  match original_filename s3_key with
  | inl e' => (Raised e', tr)
  | inr name =>
      let item :=
        <[lit "JobId" := s3_key]>
        (<[lit "Timestamp" := PStr (now_isoformat tr)]>
        (<[lit "S3Key" := s3_key]>
        (<[lit "ValidationStatus" := PStr (lit "PROCESSING_FAILED")]>
        (<[lit "ValidationMessage" := PStr (exn_str e)]>
        (<[lit "OriginalFileName" := name]>
        (<[lit "FileSize" := PInt 0]>
        (<[lit "SourceBucket" := source_bucket_name]> ∅))))))) in
      (Returned (Response 500
         (json_dumps (PDict
            (<[lit "message" :=
                 PStr (lit "Error processing file " ++ py_str s3_key)]>
            (<[lit "error" := PStr (exn_str e)]> ∅))))),
       tr ++ [IO (DynamoPutItem DYNAMODB_TABLE_NAME item) (put_item tr item)])
  end.

Definition lambda_handler (event : pyval) : outcome * list io_event :=
  match first_record event with
  | inl e => (Raised e, [])
  | inr None => (Returned no_records_response, [])
  | inr (Some (source_bucket_name, s3_key)) =>
      match py_print (line_93 source_bucket_name s3_key) with
      | inl e => (Raised e, [])
      | inr _ =>
          match source_bucket_name, s3_key with
          | PStr b, PStr k => process b k
          | _, _ => process_rejected source_bucket_name s3_key
          end
      end
  end.
End Source.

(** ** Shapes of parsed documents and of stored records *)
Definition is_scalar (v : pyval) : bool :=
  match v with
  | PNone | PBool _ | PInt _ | PFloat _ => true
  | _ => false
  end.

(** [k in v] on a JSON string (substring) or a JSON array (element). *)
Definition mentions (k : pystr) (v : pyval) : bool :=
  match v with
  | PStr s => contains k s
  | PList l =>
      existsb (fun x => match x with
                        | PStr s => bool_decide (s = k)
                        | _ => false
                        end) l
  | _ => false
  end.

(** The job identifier the extractor reads off a JSON object. *)
Definition job_id_field (d : gmap pystr pyval) : option pyval :=
  match d !! lit "job_id" with
  | Some v => Some v
  | None => d !! lit "JobId"
  end.

(** The metadata after lines 108-110 have added their three keys. *)
Definition with_validation (metadata : gmap pystr pyval) (is_valid : bool)
    (validation_message source_bucket_name : pystr) : gmap pystr pyval :=
  <[lit "SourceBucket" := PStr source_bucket_name]>
  (<[lit "ValidationMessage" := PStr validation_message]>
  (<[lit "ValidationStatus" :=
       PStr (if is_valid then lit "VALID" else lit "INVALID")]> metadata)).

(** ** Reading a log *)
Definition is_get (ev : io_event) : bool :=
  match io_call ev with S3GetObject _ _ => true | _ => false end.
Definition is_put (ev : io_event) : bool :=
  match io_call ev with DynamoPutItem _ _ => true | _ => false end.
Definition is_copy (ev : io_event) : bool :=
  match io_call ev with S3CopyObject _ _ _ _ => true | _ => false end.
Definition is_delete (ev : io_event) : bool :=
  match io_call ev with S3DeleteObject _ _ => true | _ => false end.
Definition is_write (ev : io_event) : bool :=
  match io_call ev with S3GetObject _ _ => false | _ => true end.
Definition succeeded (ev : io_event) : bool :=
  match io_raised ev with None => true | Some _ => false end.


Definition count (p : io_event -> bool) (tr : list io_event) : nat :=
  length (List.filter p tr).

(** The first [put_item] of a log. *)
Definition first_put (tr : list io_event) : option io_event :=
  head (List.filter is_put tr).

(** The notification [event] has a first record, and that record names
    the bucket [b] and the key [k]:
    [event['Records'][0]['s3']['bucket']['name'] == b] and
    [event['Records'][0]['s3']['object']['key'] == k]. *)
Definition notifies (event : pyval) (b k : pystr) : Prop :=
  exists d rest r s bd od,
    event = PDict d
    /\ d !! lit "Records" = Some (PList (PDict r :: rest))
    /\ r !! lit "s3" = Some (PDict s)
    /\ s !! lit "bucket" = Some (PDict bd)
    /\ bd !! lit "name" = Some (PStr b)
    /\ s !! lit "object" = Some (PDict od)
    /\ od !! lit "key" = Some (PStr k).

(** ** The runs of [process]

    [finishes (out, tr)]: the invocation on bucket [b] and key [k] ends with
    outcome [out] after the calls [tr]. One constructor for each place
    where the [try] block can be left; the [print]s of lines 104 and 128
    have none, since they print nothing that line 100 has not printed. *)
Section Runs.
Context `{Runtime} `{Aws}.
Variables (quarantine table b k : pystr).

Definition got (r : option exn) : io_event :=
  IO (S3GetObject (PStr b) (PStr k)) r.
Definition put (item : gmap pystr pyval) (r : option exn) : io_event :=
  IO (DynamoPutItem table item) r.
Definition copied (r : option exn) : io_event :=
  IO (S3CopyObject quarantine b k (lit "invalid/" ++ k)) r.

Definition failure_response (e : exn) : response :=
  Response 500
    (json_dumps (PDict
       (<[lit "message" := PStr (lit "Error processing file " ++ k)]>
       (<[lit "error" := PStr (exn_str e)]> ∅)))).

Definition success_response (is_valid : bool) (validation_message : pystr)
    (job_id : pyval) : response :=
  Response 200
    (json_dumps (PDict
       (<[lit "message" := PStr (lit "File processed successfully")]>
       (<[lit "s3Key" := PStr k]>
       (<[lit "isValid" := PBool is_valid]>
       (<[lit "validationMessage" := PStr validation_message]>
       (<[lit "jobId" := job_id]> ∅))))))).

(** The failure record written after the calls [tr], for the error [e]
    and [size] bytes of content. *)
Definition failure_record (tr : list io_event) (e : exn) (size : Z)
  : gmap pystr pyval :=
  failure_metadata b k (now_isoformat tr) e size.

(** What the [except] clause adds to a run that raised [e] after [tr]. *)
Definition failed (tr : list io_event) (e : exn) (size : Z)
  : outcome * list io_event :=
  (Returned (failure_response e),
   tr ++ [put (failure_record tr e size) (put_item tr (failure_record tr e size))]).

(** The record stored for [text], from the metadata [md] extracted from it. *)
Definition stored (text : pystr) (md : gmap pystr pyval) : gmap pystr pyval :=
  with_validation md (fst (validate_file_content text))
    (snd (validate_file_content text)) b.

Inductive finishes : outcome * list io_event -> Prop :=
| run_read_raises e :
    get_object_body [] b k = inl e ->
    finishes (failed [got (Some e)] e 0)
| run_decode_raises raw e :
    get_object_body [] b k = inr raw ->
    decode_utf8 raw = inl e ->
    finishes (failed [got None] e 0)
| run_line_100_raises raw text n e :
    get_object_body [] b k = inr raw ->
    decode_utf8 raw = inr text ->
    utf8_len text = Some n ->
    py_print (line_100 k text) = inl e ->
    finishes (failed [got None] e (Z.of_N n))
| run_extract_raises raw text n e :
    get_object_body [] b k = inr raw ->
    decode_utf8 raw = inr text ->
    utf8_len text = Some n ->
    extract_metadata text k (now_isoformat [got None]) = inl e ->
    finishes (failed [got None] e (Z.of_N n))
| run_put_raises raw text n md e :
    get_object_body [] b k = inr raw ->
    decode_utf8 raw = inr text ->
    utf8_len text = Some n ->
    extract_metadata text k (now_isoformat [got None]) = inr md ->
    put_item [got None] (stored text md) = Some e ->
    finishes (failed [got None; put (stored text md) (Some e)] e (Z.of_N n))
| run_line_115_raises raw text n md job_id e :
    get_object_body [] b k = inr raw ->
    decode_utf8 raw = inr text ->
    utf8_len text = Some n ->
    extract_metadata text k (now_isoformat [got None]) = inr md ->
    put_item [got None] (stored text md) = None ->
    stored text md !! lit "JobId" = Some job_id ->
    py_print (line_115 job_id k) = inl e ->
    finishes (failed [got None; put (stored text md) None] e (Z.of_N n))
| run_line_119_raises raw text n md e :
    get_object_body [] b k = inr raw ->
    decode_utf8 raw = inr text ->
    utf8_len text = Some n ->
    extract_metadata text k (now_isoformat [got None]) = inr md ->
    put_item [got None] (stored text md) = None ->
    fst (validate_file_content text) = false ->
    py_print (line_119 quarantine k) = inl e ->
    finishes (failed [got None; put (stored text md) None] e (Z.of_N n))
| run_copy_raises raw text n md e :
    get_object_body [] b k = inr raw ->
    decode_utf8 raw = inr text ->
    utf8_len text = Some n ->
    extract_metadata text k (now_isoformat [got None]) = inr md ->
    put_item [got None] (stored text md) = None ->
    fst (validate_file_content text) = false ->
    copy_object [got None; put (stored text md) None]
      quarantine b k (lit "invalid/" ++ k) = Some e ->
    finishes (failed [got None; put (stored text md) None; copied (Some e)]
                e (Z.of_N n))
| run_done raw text md job_id :
    get_object_body [] b k = inr raw ->
    decode_utf8 raw = inr text ->
    extract_metadata text k (now_isoformat [got None]) = inr md ->
    put_item [got None] (stored text md) = None ->
    (fst (validate_file_content text) = false ->
     copy_object [got None; put (stored text md) None]
       quarantine b k (lit "invalid/" ++ k) = None) ->
    stored text md !! lit "JobId" = Some job_id ->
    finishes (Returned (success_response (fst (validate_file_content text))
                          (snd (validate_file_content text)) job_id),
              got None :: put (stored text md) None ::
              (if fst (validate_file_content text) then [] else [copied None])).
End Runs.

End FileProcessor.

(* ===================================================================== *)
(** * lambda/GetPresignedURL/lambda_function.py *)
(* ===================================================================== *)
Module GetPresignedURL.
Import Py.

Class Aws := {
  (** [s3_client.generate_presigned_url(ClientMethod=m,
        Params={'Bucket': b, 'Key': k}, ExpiresIn=t)] *)
  generate_presigned_url : pystr -> pystr -> pystr -> Z -> exn + pystr;
}.

(** The response dict [{'statusCode': .., 'headers': .., 'body': ..}]. *)
Record response :=
  Response { statusCode : Z; headers : gmap pystr pystr; body : pystr }.

(** The two header dicts the source writes out: lines 26, 40, 84, 91 and
    lines 67-72, 100-105. *)
Definition content_type_only : gmap pystr pystr :=
  <[lit "Content-Type" := lit "application/json"]> ∅.

Definition with_cors : gmap pystr pystr :=
  <[lit "Content-Type" := lit "application/json"]>
  (<[lit "Access-Control-Allow-Origin" := lit "*"]>
  (<[lit "Access-Control-Allow-Headers" :=
       lit "Content-Type,X-Amz-Date,Authorization,X-Api-Key,X-Amz-Security-Token"]>
  (<[lit "Access-Control-Allow-Methods" := lit "OPTIONS,POST"]> ∅))).

Section Source.
Context `{Runtime} `{Aws}.

(** [os.environ.get('S3_INPUT_BUCKET_NAME')] *)
Variable S3_INPUT_BUCKET_NAME : option pystr.

Definition message (text : pystr) : pystr :=
  json_dumps (PDict (<[lit "message" := PStr text]> ∅)).

(** Lines 31-78, the body of the [try]. [json.loads] of anything but
    text raises [TypeError]. *)
Definition try_block (bucket : pystr) (event : pyval) : exn + response :=
  let! raw := py_getitem event (lit "body") in
  let! body := match raw with
               | PStr s => json_loads s
               | _ => raise TypeError OpLoads raw
               end in
  let! original_filename := py_get body (lit "filename") in
  if negb (truthy original_filename)
  then inr (Response 400 content_type_only
              (message (lit "Missing filename in request body")))
  else
    let s3_object_key := uuid4 ++ lit "-" ++ py_str original_filename in
    let! presigned_url :=
      generate_presigned_url (lit "put_object") bucket s3_object_key 300 in
    inr (Response 200 with_cors
           (json_dumps (PDict
              (<[lit "message" := PStr (lit "Pre-signed URL generated successfully")]>
              (<[lit "uploadUrl" := PStr presigned_url]>
              (<[lit "fileKey" := PStr s3_object_key]> ∅)))))).

Definition lambda_handler (event : pyval) : response :=
  match S3_INPUT_BUCKET_NAME with
  | None | Some [] =>
      Response 500 content_type_only
        (message (lit "Internal server error: S3 bucket name not configured."))
  | Some bucket =>
      match try_block bucket event with
      | inr r => r
      | inl e =>
          if is_JSONDecodeError e then
            Response 400 content_type_only
              (message (lit "Invalid JSON in request body"))
          else if is_KeyError e then
            Response 400 content_type_only
              (message (lit "Missing expected key: " ++ exn_str e))
          else
            Response 500 with_cors
              (json_dumps (PDict
                 (<[lit "message" := PStr (lit "Internal server error")]>
                 (<[lit "details" := PStr (exn_str e)]> ∅))))
      end
  end.
End Source.

(** Line 46: the key under which the upload will be stored. *)
Definition issued_key `{Runtime} (original_filename : pyval) : pystr :=
  uuid4 ++ lit "-" ++ py_str original_filename.

(** Lines 65-78: the response that carries the URL and the key. *)
Definition success_response `{Runtime} (presigned_url s3_object_key : pystr)
  : response :=
  Response 200 with_cors
    (json_dumps (PDict
       (<[lit "message" := PStr (lit "Pre-signed URL generated successfully")]>
       (<[lit "uploadUrl" := PStr presigned_url]>
       (<[lit "fileKey" := PStr s3_object_key]> ∅))))).

(** Lines 98-107: the response of the catch-all [except Exception]. *)
Definition internal_error_response `{Runtime} (e : exn) : response :=
  Response 500 with_cors
    (json_dumps (PDict
       (<[lit "message" := PStr (lit "Internal server error")]>
       (<[lit "details" := PStr (exn_str e)]> ∅)))).

(** The headers the specification calls the CORS headers. *)
Definition has_cors (r : response) : bool :=
  bool_decide (headers r !! lit "Access-Control-Allow-Origin" = Some (lit "*"))
  && bool_decide (is_Some (headers r !! lit "Access-Control-Allow-Headers"))
  && match headers r !! lit "Access-Control-Allow-Methods" with
     | Some m => contains (lit "OPTIONS") m && contains (lit "POST") m
     | None => false
     end.

End GetPresignedURL.

(* ===================================================================== *)
(** * Concrete environments, used to run the handlers on examples *)
(* ===================================================================== *)
Module Demo.
Import Py.

(** ["s"], with its double quotes. *)
Definition quoted (s : string) : pystr := [34] ++ lit s ++ [34].

(** The document [{"job_id": "J1"}]. *)
Definition doc_J1 : pystr :=
  lit "{" ++ quoted "job_id" ++ lit ": " ++ quoted "J1" ++ lit "}".

(** [json.loads] on the documents of the examples; everything else is
    taken to be malformed. *)
Definition json_table (s : pystr) : exn + pyval :=
  if bool_decide (s = doc_J1)
  then inr (PDict (<[lit "job_id" := PStr (lit "J1")]> ∅))
  else if bool_decide (s = lit "{}") then inr (PDict ∅)
  else if bool_decide (s = lit "123") then inr (PInt 123)
  else inl (Exn JSONDecodeError (lit "Expecting value")).

(** The messages of CPython 3.12 for the errors of the examples. *)
Definition error_table (op : operation) (v : pyval) : pystr :=
  match op, v with
  | OpIn, PInt _ => lit "argument of type 'int' is not iterable"
  | OpSubscript, PStr k => lit "'" ++ k ++ lit "'"
  | _, _ => lit "<error>"
  end.

Definition runtime : Runtime :=
  {| unicode_lower := fun _ c _ => [c];
     json_loads := json_table;
     json_dumps := fun _ => lit "<json>";
     str_other := fun _ => lit "<str>";
     error_text := error_table;
     decode_error_text := fun _ => lit "'utf-8' codec can't decode";
     uuid4 := lit "123e4567-e89b-42d3-a456-426614174000" |}.

(** An AWS side that gives the same answers throughout a run: the object
    body (or the error of the read), the error of [put_item] and the error
    of [copy_object], if any. *)
Definition aws (object : exn + list N) (put copy : option exn)
  : FileProcessor.Aws :=
  {| FileProcessor.get_object_body := fun _ _ _ => object;
     FileProcessor.get_object_rejects := fun _ _ =>
       Exn OtherException (lit "Parameter validation failed");
     FileProcessor.put_item := fun _ _ => put;
     FileProcessor.copy_object := fun _ _ _ _ _ => copy;
     FileProcessor.now_isoformat := fun _ => lit "2025-01-01T00:00:00" |}.

Definition unavailable : exn := Exn ClientError (lit "ServiceUnavailable").

Definition quarantine : pystr := lit "quarantine-bucket".
Definition table : pystr := lit "file-metadata".

(** Notifications. [created b k] is
    [{"Records": [{"s3": {"bucket": {"name": b}, "object": {"key": k}}}]}]. *)
Definition obj (kvs : list (pystr * pyval)) : pyval := PDict (list_to_map kvs).

Definition created (b k : pystr) : pyval :=
  obj [(lit "Records",
        PList [obj [(lit "s3",
                     obj [(lit "bucket", obj [(lit "name", PStr b)]);
                          (lit "object", obj [(lit "key", PStr k)])])]])].

(** [{"Records": [{"s3": {"bucket": {"name": "uploads"}}}]}]: the record
    has no ["object"]. *)
Definition created_without_key : pyval :=
  obj [(lit "Records",
        PList [obj [(lit "s3",
                     obj [(lit "bucket", obj [(lit "name", PStr (lit "uploads"))])])]])].

(** What a log entry shows at a glance: the call, and the key it names
    or the ValidationStatus it stores. *)
Definition digest (ev : FileProcessor.io_event) : pystr * option pyval :=
  match FileProcessor.io_call ev with
  | FileProcessor.S3GetObject _ k => (lit "get_object", Some k)
  | FileProcessor.S3CopyObject _ _ _ k => (lit "copy_object", Some (PStr k))
  | FileProcessor.S3DeleteObject _ k => (lit "delete_object", Some (PStr k))
  | FileProcessor.DynamoPutItem _ i => (lit "put_item", i !! lit "ValidationStatus")
  end.

(** A presigner that always answers. *)
Definition presigner : GetPresignedURL.Aws :=
  {| GetPresignedURL.generate_presigned_url := fun _ b k _ =>
       inr (lit "https://" ++ b ++ lit ".s3.amazonaws.com/" ++ k) |}.

(** The request [{"body": "{}"}]: a JSON body without ["filename"]. *)
Definition request_without_filename : pyval := obj [(lit "body", PStr (lit "{}"))].

(** The request body [{"filename": "report.csv"}] and a runtime whose
    [json.loads] knows it. *)
Definition upload_body : pystr :=
  lit "{" ++ quoted "filename" ++ lit ": " ++ quoted "report.csv" ++ lit "}".

Definition upload_runtime : Runtime :=
  {| unicode_lower := fun _ c _ => [c];
     json_loads := fun s =>
       if bool_decide (s = upload_body)
       then inr (PDict (<[lit "filename" := PStr (lit "report.csv")]> ∅))
       else json_table s;
     json_dumps := fun _ => lit "<json>";
     str_other := fun _ => lit "<str>";
     error_text := error_table;
     decode_error_text := fun _ => lit "'utf-8' codec can't decode";
     uuid4 := lit "123e4567-e89b-42d3-a456-426614174000" |}.

(** The request whose body is [upload_body], and the request whose body
    is [null]. *)
Definition upload_request : pyval := obj [(lit "body", PStr upload_body)].
Definition request_with_null_body : pyval := obj [(lit "body", PNone)].

(** The document [{"job_id": "\ud800"}], whose JobId is one lone
    surrogate once parsed, and a runtime whose [json.loads] knows it. *)
Definition doc_surrogate : pystr :=
  lit "{" ++ quoted "job_id" ++ lit ": " ++ quoted "\ud800" ++ lit "}".

Definition surrogate_runtime : Runtime :=
  {| unicode_lower := fun _ c _ => [c];
     json_loads := fun s =>
       if bool_decide (s = doc_surrogate)
       then inr (PDict (<[lit "job_id" := PStr [0xD800]]> ∅))
       else json_table s;
     json_dumps := fun _ => lit "<json>";
     str_other := fun _ => lit "<str>";
     error_text := error_table;
     decode_error_text := fun _ => lit "'utf-8' codec can't decode";
     uuid4 := lit "123e4567-e89b-42d3-a456-426614174000" |}.

(** The notification [{"Records": null}]. *)
Definition null_records : pyval := obj [(lit "Records", PNone)].

End Demo.

(* ===================================================================== *)
(** * Facts about the Python fragment *)
(* ===================================================================== *)
Module PyFacts.
Import Py.

(** ** Substring search *)
Lemma startswith_spec (p s : pystr) :
  startswith s p = true <-> exists post, s = p ++ post.
Proof.
  revert s. induction p as [|a p IH]; intros s; simpl.
  - split; [intros _; by exists s | done].
  - destruct s as [|b s].
    + split; [discriminate | intros [post Hp]; discriminate].
    + rewrite andb_true_iff, N.eqb_eq, IH. split.
      * intros [-> [post ->]]. eauto.
      * intros [post Hp]. injection Hp as -> ->. eauto.
Qed.

Lemma contains_spec (needle hay : pystr) :
  contains needle hay = true <-> exists pre post, hay = pre ++ needle ++ post.
Proof.
  induction hay as [|c hay IH]; simpl.
  - rewrite orb_false_r, startswith_spec. split.
    + intros [post Hp]. exists [], post. exact Hp.
    + intros [pre [post Hp]]. destruct pre; [eauto | discriminate].
  - rewrite orb_true_iff, startswith_spec, IH. split.
    + intros [[post Hp] | [pre [post Hp]]].
      * exists [], post. exact Hp.
      * exists (c :: pre), post. simpl. by rewrite Hp.
    + intros [[|c' pre] [post Hp]].
      * left. eauto.
      * right. injection Hp as _ ->. eauto.
Qed.

Lemma contains_single (c : N) (s : pystr) :
  contains [c] s = true <-> c ∈ s.
Proof.
  rewrite contains_spec. split.
  - intros [pre [post ->]]. set_solver.
  - intros Hin. apply list_elem_of_split in Hin as [pre [post ->]]. eauto.
Qed.

(** ** Lowering *)
Section Lower.
Variable ul : pystr -> N -> pystr -> pystr.

Lemma lower_from_app (pre before rest : pystr) :
  exists x, lower_from ul before (pre ++ rest)
            = x ++ lower_from ul (before ++ pre) rest.
Proof.
  revert before. induction pre as [|c pre IH]; intros before; simpl.
  - exists []. by rewrite app_nil_r.
  - destruct (IH (before ++ [c])) as [x Hx]. rewrite Hx, <- app_assoc.
    eexists. by rewrite app_assoc.
Qed.

Lemma lower_from_ascii (w before rest : pystr) :
  Forall (fun c => c < 128) w ->
  lower_from ul before (w ++ rest)
  = (ascii_lower <$> w) ++ lower_from ul (before ++ w) rest.
Proof.
  intros Hw. revert before.
  induction Hw as [|c w Hc _ IH]; intros before; simpl.
  - by rewrite app_nil_r.
  - apply N.ltb_lt in Hc. rewrite Hc, IH, <- app_assoc. reflexivity.
Qed.

(** A segment made of ASCII letters shows up lowered in the result. *)
Lemma lower_segment (pre w post : pystr) :
  Forall (fun c => c < 128) w ->
  exists x y, lower ul (pre ++ w ++ post) = x ++ (ascii_lower <$> w) ++ y.
Proof.
  intros Hw. unfold lower.
  destruct (lower_from_app pre [] (w ++ post)) as [x Hx].
  rewrite Hx, lower_from_ascii by done. eauto.
Qed.
End Lower.

Lemma ascii_lower_ascii (c d : N) : ascii_lower c = d -> d < 128 -> c < 128.
Proof.
  unfold ascii_lower. intros <-.
  destruct (_ && _) eqn:E; [| done].
  apply andb_true_iff in E as [_ E%N.leb_le]. lia.
Qed.

Lemma lowers_to_ascii (w p : pystr) :
  ascii_lower <$> w = p -> Forall (fun c => c < 128) p ->
  Forall (fun c => c < 128) w.
Proof.
  intros <-. induction w as [|c w IH]; simpl; intros Hp; [constructor |].
  inversion Hp; subst. constructor; eauto using ascii_lower_ascii.
Qed.

(** ** Splitting at the first separator *)
Lemma split1_absent (sep : N) (s : pystr) :
  sep ∉ s -> split1 sep s = [s].
Proof.
  induction s as [|c s IH]; simpl; [done |].
  intros Hn. apply not_elem_of_cons in Hn as [Hc Hs].
  destruct (N.eqb_spec c sep); [congruence |]. by rewrite IH.
Qed.

Lemma split1_first (sep : N) (a b : pystr) :
  sep ∉ a -> split1 sep (a ++ sep :: b) = [a; b].
Proof.
  induction a as [|c a IH]; simpl.
  - by rewrite N.eqb_refl.
  - intros Hn. apply not_elem_of_cons in Hn as [Hc Ha].
    destruct (N.eqb_spec c sep); [congruence |]. by rewrite IH.
Qed.

(** ** UTF-8: what [decode] accepts, [encode] gives back byte for byte. *)
Lemma utf8_width_cases (c : N) :
  (c < 0x80 -> utf8_width c = Some 1)
  /\ (0x80 <= c < 0x800 -> utf8_width c = Some 2)
  /\ (0x800 <= c < 0xD800 \/ 0xDFFF < c < 0x10000 -> utf8_width c = Some 3)
  /\ (0x10000 <= c -> utf8_width c = Some 4).
Proof.
  unfold utf8_width.
  destruct (N.ltb_spec c 0x80), (N.ltb_spec c 0x800),
    (N.leb_spec 0xD800 c), (N.leb_spec c 0xDFFF), (N.ltb_spec c 0x10000);
    simpl; repeat split; intros; first [reflexivity | lia].
Qed.

Ltac bool_hyps :=
  repeat match goal with
    | H : (_ && _) = true |- _ => apply andb_true_iff in H as [? ?]
    | H : negb _ = true |- _ => apply negb_true_iff in H
    | H : (_ && _) = false |- _ => apply andb_false_iff in H as [?|?]
    | H : (_ <? _) = true |- _ => apply N.ltb_lt in H
    | H : (_ <? _) = false |- _ => apply N.ltb_ge in H
    | H : (_ <=? _) = true |- _ => apply N.leb_le in H
    | H : (_ <=? _) = false |- _ => apply N.leb_gt in H
    | H : (_ =? _) = true |- _ => apply N.eqb_eq in H
    | H : (_ =? _) = false |- _ => apply N.eqb_neq in H
    end.

Lemma utf8_decode_len (bs : list N) (s : pystr) :
  utf8_decode bs = Some s -> utf8_len s = Some (N.of_nat (length bs)).
Proof.
  remember (length bs) as n eqn:Hn. revert bs s Hn.
  induction n as [n IH] using lt_wf_ind. intros bs s Hn.
  destruct bs as [|b0 r0]; simpl.
  { intros [= <-]. by subst. }
  assert (Hstep : forall r t w c,
             (length r < n)%nat ->
             utf8_decode r = Some t -> utf8_width c = Some w ->
             N.of_nat n = w + N.of_nat (length r) ->
             utf8_len (c :: t) = Some (N.of_nat n)).
  { intros r t w c Hlt Hd Hw Hlen. simpl.
    rewrite Hw, (IH _ Hlt r t eq_refl Hd). f_equal. lia. }
  simpl in Hn. unfold is_cont.
  repeat match goal with
  | |- context [if ?b then _ else _] => destruct b eqn:?
  | |- context [match ?l with [] => _ | _ :: _ => _ end] => destruct l
  | |- None = Some _ -> _ => discriminate
  | |- _ <$> ?o = Some _ -> _ => destruct o eqn:?; simpl; [| discriminate]
  end;
  intros [= <-]; simpl in Hn; bool_hyps;
  match goal with
  | |- utf8_len (?c :: _) = _ => pose proof (utf8_width_cases c) as (W1 & W2 & W3 & W4)
  end;
  first
    [ eapply (Hstep _ _ 1); [| eassumption | apply W1 |]; simpl; lia
    | eapply (Hstep _ _ 2); [| eassumption | apply W2 |]; simpl; lia
    | eapply (Hstep _ _ 3); [| eassumption | apply W3 |]; simpl; lia
    | eapply (Hstep _ _ 4); [| eassumption | apply W4 |]; simpl; lia ].
Qed.

(** ** What [print] accepts *)
Lemma utf8_len_app (a b : pystr) :
  utf8_len (a ++ b) =
    match utf8_len a, utf8_len b with
    | Some x, Some y => Some (x + y)
    | _, _ => None
    end.
Proof.
  induction a as [|c a IH]; simpl.
  - by destruct (utf8_len b).
  - rewrite IH. destruct (utf8_width c), (utf8_len a), (utf8_len b);
      try done. f_equal. lia.
Qed.

Lemma printable_app (a b : pystr) :
  printable (a ++ b) <-> printable a /\ printable b.
Proof.
  unfold printable. rewrite utf8_len_app.
  destruct (utf8_len a), (utf8_len b); split;
    first [by intros [? [=]] | by intros [[? [=]] ?] | by intros [? [? [=]]]
          | idtac]; eauto.
Qed.

Lemma printable_lit (s : string) : printable (lit s).
Proof.
  unfold printable, lit. generalize (list_ascii_of_string s) as l.
  induction l as [|c l IH]; [by eexists |].
  rewrite fmap_cons. destruct IH as [n Hn].
  change (utf8_len (N_of_ascii c :: (N_of_ascii <$> l)))
    with (match utf8_width (N_of_ascii c), utf8_len (N_of_ascii <$> l) with
          | Some w, Some n => Some (w + n)
          | _, _ => None
          end).
  rewrite Hn.
  assert (Hc : N_of_ascii c < 256) by apply N_ascii_bounded.
  unfold utf8_width.
  destruct (N.ltb_spec (N_of_ascii c) 128); [eauto |].
  destruct (N.ltb_spec (N_of_ascii c) 2048); [eauto | lia].
Qed.

Lemma printable_decimal (n : nat) : printable (decimal n).
Proof. apply printable_lit. Qed.

Lemma printable_bool_text (b : bool) : printable (bool_text b).
Proof. destruct b; apply printable_lit. Qed.

Lemma py_print_printable `{Runtime} (s : pystr) :
  printable s -> py_print s = inr tt.
Proof. intros [n Hn]. unfold py_print. by rewrite Hn. Qed.

Lemma py_print_raises `{Runtime} (s : pystr) (e : exn) :
  py_print s = inl e -> ~ printable s.
Proof.
  unfold py_print, printable. destruct (utf8_len s); [done |].
  by intros _ [? [=]].
Qed.

Lemma py_print_returns `{Runtime} (s : pystr) (u : unit) :
  py_print s = inr u -> printable s.
Proof.
  unfold py_print, printable. destruct (utf8_len s); [eauto | done].
Qed.

End PyFacts.

(* ===================================================================== *)
(** * [FileProcessor]: the validator, the extractor, the handler *)
(* ===================================================================== *)
Module FileProcessorSpec.
Import Py PyFacts FileProcessor.

Section Validator.
Context `{Runtime}.

(** C1. [validate_file_content] returns one of three outcomes, decided in
    this order: empty content is rejected with "File is empty"; content
    whose lower-cased text does not contain "job_id" is rejected with
    "Content missing 'job_id' keyword"; everything else is accepted with
    "Valid". In particular content that contains "job_id" written in any
    mix of upper and lower case letters is accepted. *)
Theorem validate_file_content_rules (content : pystr) :
  validate_file_content content =
    (if bool_decide (content = []) then (false, lit "File is empty")
     else if contains (lit "job_id") (py_lower content)
          then (true, lit "Valid")
          else (false, lit "Content missing 'job_id' keyword"))
  /\ (forall pre w post,
        content = pre ++ w ++ post ->
        ascii_lower <$> w = lit "job_id" ->
        content <> [] /\ validate_file_content content = (true, lit "Valid")).
Proof.
  split.
  - unfold validate_file_content. destruct content; [done |].
    rewrite bool_decide_eq_false_2 by done.
    by destruct (contains _ _).
  - intros pre w post -> Hw.
    assert (Hne : pre ++ w ++ post <> []).
    { destruct w; [discriminate |]. by destruct pre. }
    split; [done |].
    assert (Hascii : Forall (fun c => c < 128) w).
    { apply (lowers_to_ascii w _ Hw). vm_compute. repeat constructor. }
    destruct (lower_segment unicode_lower pre w post Hascii) as (x & y & Hl).
    assert (Hc : contains (lit "job_id") (py_lower (pre ++ w ++ post)) = true).
    { apply contains_spec. exists x, y. unfold py_lower. by rewrite Hl, Hw. }
    unfold validate_file_content. rewrite Hc.
    by destruct (pre ++ w ++ post).
Qed.
End Validator.

Lemma validate_file_content_rules_witness :
  validate_file_content (H := Demo.runtime) (lit "id: Job_ID=7") = (true, lit "Valid").
Proof.
  apply (proj2 (validate_file_content_rules (H := Demo.runtime) (lit "id: Job_ID=7"))
           (lit "id: ") (lit "Job_ID") (lit "=7")); reflexivity.
Defined.

(** ** The extractor *)

(** Recovery of the file name: the key is cut at its first ['-']. *)
Lemma original_filename_no_dash (key : pystr) :
  N_of_ascii "-" ∉ key -> original_filename_of key = key.
Proof.
  intros Hn. unfold original_filename_of.
  destruct (contains _ _) eqn:E; [| done].
  apply (contains_single (N_of_ascii "-")) in E. done.
Qed.

Lemma original_filename_cut (token name : pystr) :
  N_of_ascii "-" ∉ token ->
  original_filename_of (token ++ N_of_ascii "-" :: name) = name.
Proof.
  intros Hn. unfold original_filename_of.
  rewrite (split1_first _ _ _ Hn).
  destruct (contains _ _) eqn:E; [done |].
  assert (contains [N_of_ascii "-"] (token ++ N_of_ascii "-" :: name) = true)
    as E' by (apply contains_single; set_solver).
  change (lit "-") with [N_of_ascii "-"] in E. congruence.
Qed.

(** The recovery promised for every key [<token>-<name>] whose [<name>]
    has no separator fails on the keys the upload endpoint issues, whose
    token is a UUID and has four separators of its own. *)
Lemma original_filename_counterexample :
  ~ (forall token name : pystr,
       N_of_ascii "-" ∉ name ->
       original_filename_of (token ++ lit "-" ++ name) = name).
Proof.
  intros Hclaim.
  specialize (Hclaim (lit "123e4567-e89b-42d3-a456-426614174000") (lit "report.csv")).
  assert (Hrun : original_filename_of
                   (lit "123e4567-e89b-42d3-a456-426614174000" ++ lit "-" ++ lit "report.csv")
                 = lit "e89b-42d3-a456-426614174000-report.csv") by reflexivity.
  rewrite Hrun in Hclaim.
  assert (Hname : N_of_ascii "-" ∉ lit "report.csv").
  { intros Hin. apply list_elem_of_In in Hin. vm_compute in Hin. intuition discriminate. }
  specialize (Hclaim Hname). discriminate.
Qed.

(** What line 60 computes: the key is cut at the first occurrence of
    ['-'] and what follows is kept, or the whole key when it has no
    ['-']. *)
Lemma original_filename_first_separator (key : pystr) :
  (N_of_ascii "-" ∉ key -> original_filename_of key = key)
  /\ (forall token name,
        key = token ++ lit "-" ++ name ->
        N_of_ascii "-" ∉ token ->
        original_filename_of key = name).
Proof.
  split; [apply original_filename_no_dash |].
  intros token name -> Hn. by apply original_filename_cut.
Qed.

(** C7. The specification promises that a key [<token>-<name>] gives back
    [<name>] when [<name>] has no further separator, and the comment of
    lines 58-59 announces the removal of the UUID prefix. Line 60 cuts
    at the first ['-'] of the key: as soon as the token has a ['-'] of
    its own, as every UUID has, what comes back is the rest of the token,
    a ['-'] and the name, and never the name. *)
Theorem original_filename_keeps_token_tail (g rest name : pystr) :
  N_of_ascii "-" ∉ g ->
  original_filename_of ((g ++ lit "-" ++ rest) ++ lit "-" ++ name)
  = rest ++ lit "-" ++ name
  /\ original_filename_of ((g ++ lit "-" ++ rest) ++ lit "-" ++ name) <> name.
Proof.
  intros Hn.
  assert (Hcut : original_filename_of ((g ++ lit "-" ++ rest) ++ lit "-" ++ name)
                 = rest ++ lit "-" ++ name).
  { rewrite <- app_assoc. apply (original_filename_cut g _ Hn). }
  split; [exact Hcut |]. rewrite Hcut. intros Heq.
  apply (f_equal length) in Heq. rewrite !length_app in Heq. simpl in Heq. lia.
Qed.

Lemma original_filename_keeps_token_tail_witness :
  original_filename_of
    (lit "123e4567-e89b-42d3-a456-426614174000" ++ lit "-" ++ lit "report.csv")
  = lit "e89b-42d3-a456-426614174000-report.csv".
Proof.
  apply (proj1 (original_filename_keeps_token_tail
                  (lit "123e4567") (lit "e89b-42d3-a456-426614174000")
                  (lit "report.csv")
                  ltac:(intros Hin; apply list_elem_of_In in Hin;
                        vm_compute in Hin; intuition discriminate))).
Defined.

Ltac map_lookup :=
  repeat first
    [ rewrite lookup_insert_eq
    | rewrite lookup_insert_ne by (vm_compute; discriminate)
    | rewrite lookup_empty ].

Section Extractor.
Context `{Runtime}.

Lemma job_id_of_object (content : pystr) (d : gmap pystr pyval) :
  json_loads content = inr (PDict d) ->
  job_id_of content = inr (default (PStr (lit "UNKNOWN")) (job_id_field d)).
Proof.
  intros Hp. unfold job_id_of, job_id_field. rewrite Hp. simpl.
  destruct (d !! lit "job_id") as [v|] eqn:E1; simpl; [done |].
  by destruct (d !! lit "JobId") as [v|] eqn:E2.
Qed.

Lemma job_id_of_malformed (content : pystr) (e : exn) :
  json_loads content = inl e -> is_JSONDecodeError e = true ->
  job_id_of content = inr (PStr (lit "UNKNOWN")).
Proof. intros Hp He. unfold job_id_of. rewrite Hp. simpl. by rewrite He. Qed.

Lemma job_id_of_scalar (content : pystr) (v : pyval) :
  json_loads content = inr v -> is_scalar v = true ->
  job_id_of content = inl (Exn TypeError (error_text OpIn v)).
Proof.
  intros Hp Hv. unfold job_id_of. rewrite Hp.
  destruct v; try discriminate; reflexivity.
Qed.

Lemma extract_metadata_job_id (content key now : pystr) (n : N) (v : pyval) :
  utf8_len content = Some n ->
  job_id_of content = inr v ->
  exists m, extract_metadata content key now = inr m
            /\ m !! lit "JobId" = Some (PStr (py_str v))
            /\ m !! lit "OriginalFileName" = Some (PStr (original_filename_of key))
            /\ m !! lit "S3Key" = Some (PStr key)
            /\ m !! lit "FileSize" = Some (PInt (Z.of_N n)).
Proof.
  intros Hn Hj. unfold extract_metadata, encoded_len. rewrite Hj, Hn. simpl.
  eexists. split; [reflexivity |]. repeat split; by map_lookup.
Qed.

(** C4. The extractor is meant never to raise: content that is not a
    key-value document falls back to the JobId "UNKNOWN". The code only
    catches [JSONDecodeError], and content such as [123], [null] or [true]
    is valid JSON: [json.loads] returns a number, [None] or a bool, the
    test ['job_id' in data] raises [TypeError], and the exception leaves
    [extract_metadata]. *)
Theorem extract_metadata_raises_on_scalar (content key now : pystr) (v : pyval) :
  json_loads content = inr v -> is_scalar v = true ->
  extract_metadata content key now = inl (Exn TypeError (error_text OpIn v)).
Proof.
  intros Hp Hv. unfold extract_metadata.
  by rewrite (job_id_of_scalar content v Hp Hv).
Qed.

Lemma job_id_of_not_object (content : pystr) (v : pyval) :
  json_loads content = inr v ->
  match v with PDict _ => False | _ => True end ->
  job_id_of content =
    if is_scalar v then inl (Exn TypeError (error_text OpIn v))
    else if mentions (lit "job_id") v || mentions (lit "JobId") v
    then inl (Exn TypeError (error_text OpSubscript v))
    else inr (PStr (lit "UNKNOWN")).
Proof.
  intros Hp Hv. unfold job_id_of. rewrite Hp.
  destruct v; try done; simpl.
  - destruct (contains (lit "job_id") s); simpl; [done |].
    by destruct (contains (lit "JobId") s).
  - destruct (existsb _ l); simpl; [done |].
    by destruct (existsb _ l).
Qed.

(** C6. What the extractor does with the job identifier, by the result of
    [json.loads] on content that came out of [decode('utf-8')]:
    - an object with a ["job_id"] field, or else a ["JobId"] field: JobId
      is [str] of that value; an object with neither: JobId is "UNKNOWN";
    - a malformed document ([JSONDecodeError]): JobId is "UNKNOWN";
    - a document that is not an object: a number, [null], [true], [false],
      or a string or an array in which ['job_id' in data] or
      ['JobId' in data] holds: no record, [TypeError] is raised, where
      the specification promises "UNKNOWN"; the other strings and
      arrays give "UNKNOWN". *)
Theorem extract_metadata_job_id_cases (content key now : pystr) (n : N) :
  utf8_len content = Some n ->
  match json_loads content with
  | inr (PDict d) =>
      exists m, extract_metadata content key now = inr m
        /\ m !! lit "JobId" =
             Some (PStr (match job_id_field d with
                         | Some v => py_str v
                         | None => lit "UNKNOWN"
                         end))
  | inr v =>
      if is_scalar v
      then extract_metadata content key now
           = inl (Exn TypeError (error_text OpIn v))
      else if mentions (lit "job_id") v || mentions (lit "JobId") v
      then extract_metadata content key now
           = inl (Exn TypeError (error_text OpSubscript v))
      else exists m, extract_metadata content key now = inr m
             /\ m !! lit "JobId" = Some (PStr (lit "UNKNOWN"))
  | inl e =>
      if is_JSONDecodeError e
      then exists m, extract_metadata content key now = inr m
             /\ m !! lit "JobId" = Some (PStr (lit "UNKNOWN"))
      else extract_metadata content key now = inl e
  end.
Proof.
  intros Hn.
  assert (Hunknown : job_id_of content = inr (PStr (lit "UNKNOWN")) ->
            exists m, extract_metadata content key now = inr m
              /\ m !! lit "JobId" = Some (PStr (lit "UNKNOWN"))).
  { intros Hj.
    destruct (extract_metadata_job_id content key now n _ Hn Hj)
      as (m & Hm & Hid & _). eauto. }
  assert (Hother : forall v, json_loads content = inr v ->
            match v with PDict _ => False | _ => True end ->
            if is_scalar v
            then extract_metadata content key now
                 = inl (Exn TypeError (error_text OpIn v))
            else if mentions (lit "job_id") v || mentions (lit "JobId") v
            then extract_metadata content key now
                 = inl (Exn TypeError (error_text OpSubscript v))
            else exists m, extract_metadata content key now = inr m
                   /\ m !! lit "JobId" = Some (PStr (lit "UNKNOWN"))).
  { intros v Hp Hv. pose proof (job_id_of_not_object content v Hp Hv) as Hj.
    destruct (is_scalar v); [unfold extract_metadata; by rewrite Hj |].
    destruct (_ || _); [| by apply Hunknown].
    unfold extract_metadata. by rewrite Hj. }
  destruct (json_loads content) as [e | v] eqn:Hp.
  - destruct (is_JSONDecodeError e) eqn:He.
    + apply Hunknown. by apply (job_id_of_malformed content e).
    + unfold extract_metadata, job_id_of. by rewrite Hp; simpl; rewrite He.
  - destruct v; try (by apply Hother).
    destruct (extract_metadata_job_id content key now n _ Hn
                (job_id_of_object content d Hp)) as (m & Hm & Hj & _).
    exists m. split; [done |]. rewrite Hj. by destruct (job_id_field d).
Qed.
End Extractor.

Lemma extract_metadata_raises_on_scalar_witness :
  extract_metadata (H := Demo.runtime) (lit "123") (lit "abc-report.csv") (lit "2025-01-01T00:00:00")
  = inl (Exn TypeError (lit "argument of type 'int' is not iterable")).
Proof.
  apply (extract_metadata_raises_on_scalar (H := Demo.runtime)
           (lit "123") (lit "abc-report.csv") (lit "2025-01-01T00:00:00") (PInt 123));
    reflexivity.
Defined.

Lemma extract_metadata_job_id_cases_witness :
  extract_metadata (H := Demo.runtime) (lit "123") (lit "abc-report.csv") (lit "2025-01-01T00:00:00")
  = inl (Exn TypeError (lit "argument of type 'int' is not iterable")).
Proof.
  exact (extract_metadata_job_id_cases (H := Demo.runtime)
           (lit "123") (lit "abc-report.csv") (lit "2025-01-01T00:00:00") 3 eq_refl).
Defined.

(** The round trip of the specification: [{"job_id": "J1"}] gives "J1". *)
Example extract_metadata_J1 :
  exists m, extract_metadata (H := Demo.runtime) Demo.doc_J1 (lit "abc-report.csv") (lit "2025-01-01T00:00:00") = inr m
            /\ m !! lit "JobId" = Some (PStr (lit "J1")).
Proof. eexists. split; [reflexivity |]. vm_compute. reflexivity. Qed.

(** ** The handler *)
Section Handler.
Context `{Runtime} `{Aws}.
Variables (quarantine table : pystr).

Lemma except_block_failed (b k : pystr) (e : exn) (st : state) (n : N) :
  utf8_len (file_content st) = Some n ->
  (let '(o, st') := except_block table b k e st in (o, log st'))
  = failed table b k (log st) e (Z.of_N n).
Proof.
  intros Hn. unfold except_block, encoded_len. rewrite Hn.
  destruct (file_content st) eqn:Hc.
  - injection Hn as <-. reflexivity.
  - reflexivity.
Qed.

Lemma extract_metadata_inv (content key now : pystr) (md : gmap pystr pyval) :
  extract_metadata content key now = inr md ->
  exists v n, job_id_of content = inr v /\ utf8_len content = Some n
    /\ md !! lit "JobId" = Some (PStr (py_str v)).
Proof.
  unfold extract_metadata, encoded_len.
  destruct (job_id_of content) as [e|v]; [done |].
  destruct (utf8_len content) as [n|]; [| done].
  simpl. intros [= <-]. exists v, n. split; [done |]. split; [done |]. by map_lookup.
Qed.

Lemma stored_job_id (b text : pystr) (md : gmap pystr pyval) :
  stored b text md !! lit "JobId" = md !! lit "JobId".
Proof. unfold stored, with_validation. by map_lookup. Qed.

Lemma line_100_printable (k text : pystr) :
  printable (line_100 k text) <-> printable k.
Proof.
  unfold line_100. rewrite !printable_app.
  pose proof (printable_lit "Successfully read file content for ").
  pose proof (printable_lit ". Content length: ").
  pose proof (printable_lit " bytes.").
  pose proof (printable_decimal (length text)). tauto.
Qed.

Lemma validation_message_printable (text : pystr) :
  printable (snd (validate_file_content text)).
Proof.
  unfold validate_file_content. destruct text; [apply printable_lit |].
  destruct (contains _ _); apply printable_lit.
Qed.

Lemma line_104_printable (k text : pystr) :
  printable k ->
  printable (line_104 k (fst (validate_file_content text))
               (snd (validate_file_content text))).
Proof.
  intros Hk. unfold line_104. rewrite !printable_app.
  pose proof (printable_lit "File validation result for ").
  pose proof (printable_lit ": Valid=").
  pose proof (printable_lit ", Message='").
  pose proof (printable_lit "'").
  pose proof (printable_bool_text (fst (validate_file_content text))).
  pose proof (validation_message_printable text). tauto.
Qed.

Lemma line_128_printable (k : pystr) : printable k -> printable (line_128 k).
Proof.
  intros Hk. unfold line_128. rewrite !printable_app.
  pose proof (printable_lit "File ").
  pose proof (printable_lit " copied to quarantine."). tauto.
Qed.

Lemma line_115_printable (j : pyval) (k : pystr) :
  printable (line_115 j k) <-> printable (py_str j) /\ printable k.
Proof.
  unfold line_115. rewrite !printable_app.
  pose proof (printable_lit "Metadata stored in DynamoDB for JobId: ").
  pose proof (printable_lit ", S3Key: "). tauto.
Qed.

Lemma line_119_printable (k : pystr) :
  printable (line_119 quarantine k) <-> printable k /\ printable quarantine.
Proof.
  unfold line_119. rewrite !printable_app.
  pose proof (printable_lit "File ").
  pose proof (printable_lit " is invalid. Copying to quarantine bucket: ").
  tauto.
Qed.

Ltac to_except n Hn :=
  match goal with
  | |- context [except_block _ _ _ ?e ?st] =>
      rewrite (except_block_failed _ _ e st n Hn)
  end.

Lemma process_finishes (b k : pystr) :
  finishes quarantine table b k (process quarantine table b k).
Proof.
  unfold process, try_block, seq, s3_get_object, lift, assign_file_content, datetime_now.
  cbn [log file_content record_call app].
  destruct (get_object_body [] b k) as [e|raw] eqn:Hget.
  { to_except 0 (eq_refl (Some 0)). by constructor. }
  destruct (decode_utf8 raw) as [e|text] eqn:Hdec.
  { to_except 0 (eq_refl (Some 0)). by econstructor. }
  assert (exists n, utf8_len text = Some n) as [n Hn].
  { unfold decode_utf8 in Hdec. destruct (utf8_decode raw) eqn:Hd; [| done].
    injection Hdec as <-. eauto using utf8_decode_len. }
  destruct (py_print (line_100 k text)) as [e|[]] eqn:H100.
  { to_except n Hn. by econstructor. }
  apply py_print_returns, line_100_printable in H100 as Hk.
  pose proof (py_print_printable _ (line_104_printable k text Hk)) as H104.
  pose proof (py_print_printable _ (line_128_printable k Hk)) as H128.
  destruct (validate_file_content text) as [is_valid validation_message] eqn:Hv.
  simpl in H104. rewrite H104.
  cbn [log file_content].
  destruct (extract_metadata text k _) as [e|md] eqn:Hext.
  { to_except n Hn. by econstructor. }
  apply extract_metadata_inv in Hext as Hmd. destruct Hmd as (v & _ & _ & _ & Hid).
  fold (with_validation md is_valid validation_message b).
  assert (Hitem : with_validation md is_valid validation_message b = stored b text md)
    by (unfold stored; by rewrite Hv).
  rewrite Hitem. rewrite <- (stored_job_id b text) in Hid.
  assert (is_valid = fst (validate_file_content text)) as -> by (by rewrite Hv).
  assert (validation_message = snd (validate_file_content text)) as -> by (by rewrite Hv).
  clear Hv Hitem H104.
  unfold dynamodb_put_item. cbn [log file_content record_call app].
  destruct (put_item _ (stored b text md)) as [e|] eqn:Hput.
  { to_except n Hn. by econstructor. }
  unfold py_getitem. rewrite Hid.
  destruct (py_print (line_115 _ k)) as [e|[]] eqn:H115.
  { to_except n Hn. by econstructor. }
  destruct (fst (validate_file_content text)) eqn:Hvalid; cbn [negb ret log file_content].
  { pose proof (run_done quarantine table b k raw text md _ Hget Hdec Hext Hput
                  ltac:(congruence) Hid) as R.
    rewrite Hvalid in R. exact R. }
  unfold seq, lift, s3_copy_object. cbn [log file_content record_call app].
  destruct (py_print (line_119 quarantine k)) as [e|[]] eqn:H119.
  { to_except n Hn. by econstructor. }
  destruct (copy_object _ quarantine b k _) as [e|] eqn:Hcopy.
  { to_except n Hn. by econstructor. }
  rewrite H128.
  pose proof (run_done quarantine table b k raw text md _ Hget Hdec Hext Hput
                (fun _ => Hcopy) Hid) as R.
  rewrite Hvalid in R. exact R.
Qed.


Lemma first_record_notifies (event : pyval) (b k : pystr) :
  notifies event b k -> first_record event = inr (Some (PStr b, PStr k)).
Proof.
  intros (d & rest & r & s & bd & od & -> & Hd & Hr & Hs & Hbd & Hso & Hod).
  unfold first_record. simpl. rewrite Hd. simpl. rewrite Hr. simpl.
  rewrite Hs. simpl. rewrite Hbd. simpl. rewrite Hso. simpl. by rewrite Hod.
Qed.

Lemma line_93_printable (b k : pystr) :
  printable (line_93 (PStr b) (PStr k)) <-> printable b /\ printable k.
Proof.
  unfold line_93, py_str. rewrite !printable_app.
  pose proof (printable_lit "Attempting to process file: s3://").
  pose proof (printable_lit "/"). tauto.
Qed.

Lemma lambda_handler_process (event : pyval) (b k : pystr) :
  notifies event b k ->
  printable b -> printable k ->
  lambda_handler quarantine table event = process quarantine table b k.
Proof.
  intros Hn Hb Hk. unfold lambda_handler.
  rewrite (first_record_notifies _ _ _ Hn).
  by rewrite (py_print_printable _ (proj2 (line_93_printable b k) (conj Hb Hk))).
Qed.

(** C9. An event with no ["Records"] key, or with an empty ["Records"]
    list, is answered with status 400 and the "no records" message, and
    the run issues no call at all: nothing is read, nothing is written. *)
Theorem lambda_handler_no_records (event : pyval) (d : gmap pystr pyval) :
  event = PDict d ->
  d !! lit "Records" = None \/ d !! lit "Records" = Some (PList []) ->
  lambda_handler quarantine table event = (Returned no_records_response, [])
  /\ statusCode no_records_response = 400%Z
  /\ count is_write (snd (lambda_handler quarantine table event)) = 0%nat.
Proof.
  intros -> Hd.
  assert (Hh : lambda_handler quarantine table (PDict d)
               = (Returned no_records_response, [])).
  { unfold lambda_handler, first_record. simpl.
    destruct Hd as [Hd | Hd]; rewrite Hd; reflexivity. }
  rewrite Hh. done.
Qed.

(** C5, amended. When the first record of the event carries a bucket name
    and an object key, both strings of well-formed text (no lone
    surrogate, so that line 93 can print them), the handler returns a
    response with status 200 or 500; no exception reaches the caller. *)
Theorem lambda_handler_returns (event : pyval) (b k : pystr) :
  notifies event b k ->
  printable b -> printable k ->
  exists r, fst (lambda_handler quarantine table event) = Returned r
            /\ (statusCode r = 200%Z \/ statusCode r = 500%Z).
Proof.
  intros Hn Hb Hk. rewrite (lambda_handler_process _ _ _ Hn Hb Hk).
  pose proof (process_finishes b k) as R.
  inversion R; eexists; (split; [reflexivity |]); simpl; auto.
Qed.

(** The [print]s of the [try] block go through when the key, the JobId
    and (for rejected content) the name of the quarantine bucket are
    well-formed text. *)
Lemma prints_go_through (b k text j : pystr) (md : gmap pystr pyval) :
  printable k ->
  md !! lit "JobId" = Some (PStr j) ->
  printable j ->
  (fst (validate_file_content text) = false -> printable quarantine) ->
  py_print (line_100 k text) = inr tt
  /\ (forall job_id, stored b text md !! lit "JobId" = Some job_id ->
                     py_print (line_115 job_id k) = inr tt)
  /\ (fst (validate_file_content text) = false ->
      py_print (line_119 quarantine k) = inr tt).
Proof.
  intros Hk Hj Hpj Hq. repeat split.
  - by apply py_print_printable, line_100_printable.
  - intros job_id Hs. rewrite stored_job_id, Hj in Hs. injection Hs as <-.
    by apply py_print_printable, line_115_printable.
  - intros Hv. apply py_print_printable, line_119_printable. auto.
Qed.

(** C2, amended. When the read and the decoding succeed, the extractor
    returns, the key, the JobId and (for rejected content) the name of
    the quarantine bucket are well-formed text, and [put_item] and (for
    rejected content) [copy_object] do not raise, the run is: the read,
    one [put_item] of the file's record with ValidationStatus "VALID" or
    "INVALID", and then a [copy_object] exactly when the content was
    rejected, into the quarantine bucket under ["invalid/" + key]; the
    run ends with status 200 and never issues [delete_object]. *)
Theorem process_stores_then_quarantines (b k raw text j : pystr)
    (md : gmap pystr pyval) :
  get_object_body [] b k = inr raw ->
  decode_utf8 raw = inr text ->
  extract_metadata text k (now_isoformat [got b k None]) = inr md ->
  printable k ->
  md !! lit "JobId" = Some (PStr j) ->
  printable j ->
  (fst (validate_file_content text) = false -> printable quarantine) ->
  put_item [got b k None] (stored b text md) = None ->
  (fst (validate_file_content text) = false ->
   copy_object [got b k None; put table (stored b text md) None]
     quarantine b k (lit "invalid/" ++ k) = None) ->
  snd (process quarantine table b k)
  = got b k None :: put table (stored b text md) None ::
    (if fst (validate_file_content text) then []
     else [IO (S3CopyObject quarantine b k (lit "invalid/" ++ k)) None])
  /\ stored b text md !! lit "ValidationStatus"
     = Some (PStr (if fst (validate_file_content text)
                   then lit "VALID" else lit "INVALID"))
  /\ count is_put (snd (process quarantine table b k)) = 1%nat
  /\ count is_copy (snd (process quarantine table b k))
     = (if fst (validate_file_content text) then 0 else 1)%nat
  /\ count is_delete (snd (process quarantine table b k)) = 0%nat
  /\ exists r, fst (process quarantine table b k) = Returned r
               /\ statusCode r = 200%Z.
Proof.
  intros Hget Hdec Hext Hk Hid Hpj Hq Hput Hcopy.
  destruct (prints_go_through b k text j md Hk Hid Hpj Hq) as (P100 & P115 & P119).
  pose proof (process_finishes b k) as R.
  inversion R as [ e' Hg E | raw' e' Hg Hd E | raw' text' n e' Hg Hd Hn H100 E
                 | raw' text' n e' Hg Hd Hn He E
                 | raw' text' n md' e' Hg Hd Hn He Hp E
                 | raw' text' n md' jid e' Hg Hd Hn He Hp Hj H115 E
                 | raw' text' n md' e' Hg Hd Hn He Hp Hv H119 E
                 | raw' text' n md' e' Hg Hd Hn He Hp Hv Hc E
                 | raw' text' md' job_id Hg Hd He Hp Hc Hj E ];
    try congruence.
  - assert (text' = text) as -> by congruence.
    assert (md' = md) as -> by congruence.
    specialize (P115 _ Hj). congruence.
  - assert (text' = text) as -> by congruence.
    specialize (P119 Hv). congruence.
  - assert (text' = text) as -> by congruence.
    assert (md' = md) as -> by congruence.
    specialize (Hcopy Hv). congruence.
  - assert (text' = text) as -> by congruence.
    assert (md' = md) as -> by congruence.
    simpl. split; [reflexivity |].
    split; [unfold stored, with_validation; by map_lookup |].
    unfold count. destruct (fst (validate_file_content text)); simpl; eauto 10.
Qed.

(** The state the [try] block is left in: [file_content] is still empty,
    or it is the decoded body of the object. *)
Lemma keeps_seq {A B} (m : M A) (f : A -> M B) :
  keeps_content m -> (forall a, keeps_content (f a)) -> keeps_content (seq m f).
Proof.
  intros Hm Hf st r st'. unfold seq.
  destruct (m st) as [[e|a] st1] eqn:E1.
  - intros [= <- <-]. eauto.
  - intros E2. rewrite (Hf _ _ _ _ E2). eauto.
Qed.

Lemma keeps_lift {A} (x : exn + A) : keeps_content (lift x).
Proof. by intros st r st' [= <- <-]. Qed.

Lemma keeps_ret {A} (a : A) : keeps_content (ret a).
Proof. by intros st r st' [= <- <-]. Qed.

Lemma keeps_now : keeps_content datetime_now.
Proof. by intros st r st' [= <- <-]. Qed.

Lemma keeps_put (item : gmap pystr pyval) :
  keeps_content (dynamodb_put_item table item).
Proof. by intros st r st' [= <- <-]. Qed.

Lemma keeps_copy (q sb sk key : pystr) : keeps_content (s3_copy_object q sb sk key).
Proof. by intros st r st' [= <- <-]. Qed.

Ltac keeps :=
  repeat first
    [ apply keeps_lift | apply keeps_ret | apply keeps_now
    | apply keeps_put | apply keeps_copy
    | apply keeps_seq; [| intros ?]
    | match goal with
      | |- keeps_content (if ?c then _ else _) => destruct c
      | |- keeps_content (let '(_, _) := ?x in _) => destruct x
      end ].

Lemma try_block_content (b k : pystr) (r : exn + response) (st : state) :
  try_block quarantine table b k (State [] []) = (r, st) ->
  match get_object_body [] b k with
  | inl _ => file_content st = []
  | inr raw =>
      match decode_utf8 raw with
      | inl _ => file_content st = []
      | inr text => file_content st = text
      end
  end.
Proof.
  unfold try_block. unfold seq at 1 2 3.
  unfold s3_get_object, lift at 1, assign_file_content.
  cbn [log file_content record_call app].
  destruct (get_object_body [] b k) as [e|raw] eqn:Hget; [by intros [= <- <-] |].
  destruct (decode_utf8 raw) as [e|text] eqn:Hdec; [by intros [= <- <-] |].
  intros Hrest.
  match type of Hrest with
  | ?m ?s = _ => assert (K : keeps_content m) by keeps
  end.
  by rewrite (K _ _ _ Hrest).
Qed.

(** C3. When a step of the [try] block raises [e], whatever the step, the
    handler builds the failure record: JobId is the key itself,
    ValidationStatus "PROCESSING_FAILED", ValidationMessage [str(e)], and
    FileSize the UTF-8 length of the content read before the failure:
    the length of the decoded body, which is its number of bytes, once
    the read and the decoding have succeeded, and 0 when one of them
    failed. It issues one more [put_item] with that record and returns
    status 500, whether that [put_item] raises or not. *)
Theorem process_records_failure (b k : pystr) (e : exn) (st : state) :
  try_block quarantine table b k (State [] []) = (inl e, st) ->
  exists size : N,
    match get_object_body [] b k with
    | inl _ => file_content st = [] /\ size = 0
    | inr raw =>
        match decode_utf8 raw with
        | inl _ => file_content st = [] /\ size = 0
        | inr text =>
            file_content st = text
            /\ utf8_len text = Some size
            /\ size = N.of_nat (length raw)
        end
    end
    /\ process quarantine table b k
       = (Returned (failure_response k e),
          log st ++ [put table (failure_record b k (log st) e (Z.of_N size))
                       (put_item (log st)
                          (failure_record b k (log st) e (Z.of_N size)))])
    /\ statusCode (failure_response k e) = 500%Z
    /\ failure_record b k (log st) e (Z.of_N size) !! lit "JobId" = Some (PStr k)
    /\ failure_record b k (log st) e (Z.of_N size) !! lit "ValidationStatus"
       = Some (PStr (lit "PROCESSING_FAILED"))
    /\ failure_record b k (log st) e (Z.of_N size) !! lit "ValidationMessage"
       = Some (PStr (exn_str e))
    /\ failure_record b k (log st) e (Z.of_N size) !! lit "FileSize"
       = Some (PInt (Z.of_N size)).
Proof.
  intros Htry.
  pose proof (try_block_content b k _ _ Htry) as Hc.
  assert (exists size,
            utf8_len (file_content st) = Some size
            /\ match get_object_body [] b k with
               | inl _ => file_content st = [] /\ size = 0
               | inr raw =>
                   match decode_utf8 raw with
                   | inl _ => file_content st = [] /\ size = 0
                   | inr text =>
                       file_content st = text
                       /\ utf8_len text = Some size
                       /\ size = N.of_nat (length raw)
                   end
               end) as (size & Hsize & Hread).
  { destruct (get_object_body [] b k) as [?|raw]; [exists 0; by rewrite Hc |].
    destruct (decode_utf8 raw) as [?|text] eqn:Hdec; [exists 0; by rewrite Hc |].
    unfold decode_utf8 in Hdec. destruct (utf8_decode raw) eqn:Hd; [| done].
    injection Hdec as ->. apply utf8_decode_len in Hd.
    exists (N.of_nat (length raw)). by rewrite Hc. }
  exists size. split; [exact Hread |]. split.
  { unfold process. rewrite Htry.
    by rewrite (except_block_failed b k e st size Hsize). }
  split; [done |].
  unfold failure_record, failure_metadata. repeat split; by map_lookup.
Qed.

(** C10. In every run, a [copy_object] comes only after the [put_item] of
    the file's record has returned: a log with a copy starts with the
    read, that successful [put_item], and the copy, and the content was
    rejected. When the first [put_item] of a run raises, the log has no
    copy; when that [put_item] carried the file's record (and not already
    a failure record), what follows is the [put_item] of the
    PROCESSING_FAILED record and nothing else. *)
Theorem quarantine_only_after_persist (b k : pystr) :
  (count is_copy (snd (process quarantine table b k)) <> 0%nat ->
   exists text md r rest,
     snd (process quarantine table b k)
     = got b k None :: put table (stored b text md) None
         :: copied quarantine b k r :: rest
     /\ fst (validate_file_content text) = false
     /\ count is_copy rest = 0%nat)
  /\ (forall item e,
        first_put (snd (process quarantine table b k))
        = Some (put table item (Some e)) ->
        count is_copy (snd (process quarantine table b k)) = 0%nat
        /\ (item !! lit "ValidationStatus" <> Some (PStr (lit "PROCESSING_FAILED")) ->
            exists failure r,
              snd (process quarantine table b k)
              = [got b k None; put table item (Some e); put table failure r]
              /\ failure !! lit "ValidationStatus"
                 = Some (PStr (lit "PROCESSING_FAILED")))).
Proof.
  assert (Hstatus : forall tr e size,
            failure_record b k tr e size !! lit "ValidationStatus"
            = Some (PStr (lit "PROCESSING_FAILED"))).
  { intros. unfold failure_record, failure_metadata. by map_lookup. }
  pose proof (process_finishes b k) as R.
  inversion R as [ e Hg E | raw' e Hg Hd E | raw' text' n e Hg Hd Hn H100 E
                 | raw' text' n e Hg Hd Hn He E
                 | raw' text' n md' e Hg Hd Hn He Hp E
                 | raw' text' n md' jid e Hg Hd Hn He Hp Hj H115 E
                 | raw' text' n md' e Hg Hd Hn He Hp Hv H119 E
                 | raw' text' n md' e Hg Hd Hn He Hp Hv Hc E
                 | raw' text' md' job_id Hg Hd He Hp Hc Hj E ];
    unfold count, first_put; simpl; split; try done.
  - (* the read raised: the first put carries the failure record *)
    intros item e' [= <- _]. split; [done |]. by rewrite Hstatus.
  - intros item e' [= <- _]. split; [done |]. by rewrite Hstatus.
  - intros item e' [= <- _]. split; [done |]. by rewrite Hstatus.
  - intros item e' [= <- _]. split; [done |]. by rewrite Hstatus.
  - (* the record could not be stored *)
    intros item e' [= <- <-]. split; [done |]. eauto.
  - (* the copy raised, after the record was stored *)
    intros _. exists text', md', (Some e). eexists. by split.
  - (* the run completed *)
    destruct (fst (validate_file_content text')) eqn:Hv; simpl; [done |].
    intros _. by exists text', md', None, [].
Qed.

End Handler.

(** ** The scenarios of the specification, run on the model *)

(** A valid document: one record, VALID, no copy. *)
Example scenario_valid_document :
  Demo.digest <$>
    snd (process (H := Demo.runtime) (H0 := Demo.aws (inr Demo.doc_J1) None None)
           Demo.quarantine Demo.table (lit "uploads") (lit "abc-report.csv"))
  = [(lit "get_object", Some (PStr (lit "abc-report.csv")));
     (lit "put_item", Some (PStr (lit "VALID")))].
Proof. vm_compute. reflexivity. Qed.

(** An empty file: one record, INVALID, and the copy under [invalid/]. *)
Example scenario_empty_file :
  Demo.digest <$>
    snd (process (H := Demo.runtime) (H0 := Demo.aws (inr []) None None)
           Demo.quarantine Demo.table (lit "uploads") (lit "abc-bad.csv"))
  = [(lit "get_object", Some (PStr (lit "abc-bad.csv")));
     (lit "put_item", Some (PStr (lit "INVALID")));
     (lit "copy_object", Some (PStr (lit "invalid/abc-bad.csv")))].
Proof. vm_compute. reflexivity. Qed.

(** The read raises: the failure record. *)
Example scenario_read_raises :
  Demo.digest <$>
    snd (process (H := Demo.runtime) (H0 := Demo.aws (inl Demo.unavailable) None None)
           Demo.quarantine Demo.table (lit "uploads") (lit "abc-report.csv"))
  = [(lit "get_object", Some (PStr (lit "abc-report.csv")));
     (lit "put_item", Some (PStr (lit "PROCESSING_FAILED")))].
Proof. vm_compute. reflexivity. Qed.

(** The file [123]: rejected by the validator, but the extractor raises,
    so the file is recorded as PROCESSING_FAILED and not quarantined. *)
Example scenario_number_document :
  fst (validate_file_content (H := Demo.runtime) (lit "123")) = false
  /\ Demo.digest <$>
       snd (process (H := Demo.runtime) (H0 := Demo.aws (inr (lit "123")) None None)
              Demo.quarantine Demo.table (lit "uploads") (lit "abc-report.csv"))
     = [(lit "get_object", Some (PStr (lit "abc-report.csv")));
        (lit "put_item", Some (PStr (lit "PROCESSING_FAILED")))].
Proof. split; vm_compute; reflexivity. Qed.

(** C2, as the specification words it: whenever the read and the decoding
    succeed, exactly one record is persisted and the copy is made if and
    only if the content was rejected. With the metadata store down, the
    empty file [abc-bad.csv] is rejected, yet no record is persisted and
    no copy is made: the handler goes to its failure branch. *)
Lemma process_store_down_counterexample :
  ~ (forall (R : Runtime) (A : Aws) (q t b k raw text : pystr),
       get_object_body [] b k = inr raw ->
       decode_utf8 raw = inr text ->
       count (fun ev => is_put ev && succeeded ev) (snd (process q t b k)) = 1%nat
       /\ (count is_copy (snd (process q t b k)) = 1%nat
           <-> fst (validate_file_content text) = false)).
Proof.
  intros Hclaim.
  destruct (Hclaim Demo.runtime (Demo.aws (inr []) (Some Demo.unavailable) None)
              Demo.quarantine Demo.table (lit "uploads") (lit "abc-bad.csv")
              [] [] eq_refl eq_refl) as [Hput _].
  vm_compute in Hput. discriminate.
Qed.

Lemma process_stores_then_quarantines_witness :
  count is_put
    (snd (process (H := Demo.runtime) (H0 := Demo.aws (inr []) None None)
            Demo.quarantine Demo.table (lit "uploads") (lit "abc-bad.csv"))) = 1%nat
  /\ count is_copy
       (snd (process (H := Demo.runtime) (H0 := Demo.aws (inr []) None None)
               Demo.quarantine Demo.table (lit "uploads") (lit "abc-bad.csv"))) = 1%nat.
Proof.
  edestruct (process_stores_then_quarantines (H := Demo.runtime)
               (H0 := Demo.aws (inr []) None None)
               Demo.quarantine Demo.table (lit "uploads") (lit "abc-bad.csv") [] []
               (lit "UNKNOWN"))
    as (_ & _ & Hput & Hcopy & _);
    [reflexivity | reflexivity | reflexivity | by eexists | reflexivity
    | by eexists | by eexists | reflexivity | reflexivity |].
  split; [exact Hput | exact Hcopy].
Defined.

(** The store is down after the document [{"job_id": "J1"}], 16 bytes
    long, has been read: the failure record carries FileSize 16. *)
Lemma process_records_failure_witness :
  exists tr,
    snd (process (H := Demo.runtime)
           (H0 := Demo.aws (inr Demo.doc_J1) (Some Demo.unavailable) None)
           Demo.quarantine Demo.table (lit "uploads") (lit "abc-report.csv"))
    = tr ++ [put Demo.table
               (failure_record
                  (H0 := Demo.aws (inr Demo.doc_J1) (Some Demo.unavailable) None)
                  (lit "uploads") (lit "abc-report.csv") tr Demo.unavailable 16)
               (Some Demo.unavailable)].
Proof.
  pose (md := match extract_metadata (H := Demo.runtime) Demo.doc_J1
                      (lit "abc-report.csv") (lit "2025-01-01T00:00:00") with
              | inr m => m
              | inl _ => ∅
              end).
  destruct (process_records_failure (H := Demo.runtime)
              (H0 := Demo.aws (inr Demo.doc_J1) (Some Demo.unavailable) None)
              Demo.quarantine Demo.table (lit "uploads") (lit "abc-report.csv")
              Demo.unavailable
              (State Demo.doc_J1
                 [got (lit "uploads") (lit "abc-report.csv") None;
                  put Demo.table
                    (stored (H := Demo.runtime) (lit "uploads") Demo.doc_J1 md)
                    (Some Demo.unavailable)])
              eq_refl)
    as (size & Hread & Hrun & _).
  destruct Hread as (_ & _ & ->).
  rewrite Hrun. eexists. reflexivity.
Defined.

Lemma quarantine_only_after_persist_witness :
  exists text md r rest,
    snd (process (H := Demo.runtime) (H0 := Demo.aws (inr []) None None)
           Demo.quarantine Demo.table (lit "uploads") (lit "abc-bad.csv"))
    = got (lit "uploads") (lit "abc-bad.csv") None
        :: put Demo.table (stored (H := Demo.runtime) (lit "uploads") text md) None
        :: copied Demo.quarantine (lit "uploads") (lit "abc-bad.csv") r :: rest
    /\ fst (validate_file_content (H := Demo.runtime) text) = false
    /\ count is_copy rest = 0%nat.
Proof.
  apply (proj1 (quarantine_only_after_persist (H := Demo.runtime)
                  (H0 := Demo.aws (inr []) None None)
                  Demo.quarantine Demo.table (lit "uploads") (lit "abc-bad.csv"))).
  vm_compute. discriminate.
Defined.

Lemma lambda_handler_no_records_witness :
  lambda_handler (H := Demo.runtime) (H0 := Demo.aws (inr []) None None)
    Demo.quarantine Demo.table (PDict ∅)
  = (Returned (no_records_response (H := Demo.runtime)), []).
Proof.
  apply (lambda_handler_no_records (H := Demo.runtime)
           (H0 := Demo.aws (inr []) None None)
           Demo.quarantine Demo.table (PDict ∅) ∅ eq_refl).
  left. reflexivity.
Defined.

(** C5, as the specification words it: a response for every event with at
    least one record, malformed records included. The four subscripts of
    lines 88-91 stand before the [try]: on a record that lacks
    ["object"] the [KeyError] leaves the handler. *)
Lemma lambda_handler_malformed_counterexample :
  lambda_handler (H := Demo.runtime) (H0 := Demo.aws (inr []) None None)
    Demo.quarantine Demo.table Demo.created_without_key
  = (Raised (Exn KeyError (lit "'object'")), []).
Proof. vm_compute. reflexivity. Qed.

Lemma lambda_handler_returns_witness :
  exists r, fst (lambda_handler (H := Demo.runtime)
                   (H0 := Demo.aws (inr Demo.doc_J1) None None)
                   Demo.quarantine Demo.table
                   (Demo.created (lit "uploads") (lit "abc-report.csv")))
            = Returned r
            /\ (statusCode r = 200%Z \/ statusCode r = 500%Z).
Proof.
  apply (lambda_handler_returns (H := Demo.runtime)
           (H0 := Demo.aws (inr Demo.doc_J1) None None)
           Demo.quarantine Demo.table _ (lit "uploads") (lit "abc-report.csv"));
    [| by eexists | by eexists].
  unfold notifies, Demo.created, Demo.obj.
  do 6 eexists. split; [reflexivity |].
  repeat split; apply lookup_insert_eq || (simpl; apply lookup_insert_eq).
Defined.

End FileProcessorSpec.

(* ===================================================================== *)
(** * [GetPresignedURL]: the upload-credential endpoint *)
(* ===================================================================== *)
Module GetPresignedURLSpec.
Import Py GetPresignedURL.

Lemma plain_response_no_cors (c : Z) (b : pystr) :
  has_cors (Response c content_type_only b) = false.
Proof. reflexivity. Qed.

Lemma cors_response_has_cors (c : Z) (b : pystr) :
  has_cors (Response c with_cors b) = true.
Proof. vm_compute. reflexivity. Qed.

Section Endpoint.
Context `{Runtime} `{Aws}.

(** C8. The specification wants the CORS headers on every response of the
    endpoint, errors included. The code puts them on the 200 response
    and on the 500 of the catch-all [except Exception] (lines 67-72 and
    100-105) and leaves them out everywhere else: every 400 response
    (missing filename, invalid JSON, missing key) and the 500 sent when
    the bucket name is not configured carry ['Content-Type'] only. *)
Theorem lambda_handler_cors (bucket : option pystr) (event : pyval) :
  (statusCode (lambda_handler bucket event) = 400%Z ->
   has_cors (lambda_handler bucket event) = false)
  /\ (bucket = None \/ bucket = Some [] ->
      statusCode (lambda_handler bucket event) = 500%Z
      /\ has_cors (lambda_handler bucket event) = false)
  /\ (statusCode (lambda_handler bucket event) = 200%Z ->
      has_cors (lambda_handler bucket event) = true).
Proof.
  unfold lambda_handler.
  destruct bucket as [[|c bucket]|].
  - repeat split; try done; intros _; apply plain_response_no_cors.
  - split; [| split; [by intros [|] |]].
    + destruct (try_block _ event) as [e|r] eqn:Htry.
      * destruct (is_JSONDecodeError e); [intros _; apply plain_response_no_cors |].
        destruct (is_KeyError e); [intros _; apply plain_response_no_cors |].
        done.
      * unfold try_block in Htry.
        repeat match type of Htry with
          | context [bind ?m _] => destruct m; simpl in Htry; [done |]
          | context [if ?b then _ else _] => destruct b
          end;
          injection Htry as <-; try done; intros _; apply plain_response_no_cors.
    + destruct (try_block _ event) as [e|r] eqn:Htry.
      * destruct (is_JSONDecodeError e); [done |].
        destruct (is_KeyError e); [done |]. done.
      * unfold try_block in Htry.
        repeat match type of Htry with
          | context [bind ?m _] => destruct m; simpl in Htry; [done |]
          | context [if ?b then _ else _] => destruct b
          end;
          injection Htry as <-; try done; intros _; apply cors_response_has_cors.
  - repeat split; try done; intros _; apply plain_response_no_cors.
Qed.
End Endpoint.

Lemma lambda_handler_cors_witness :
  has_cors (lambda_handler (H := Demo.runtime) (H0 := Demo.presigner)
              (Some (lit "uploads")) Demo.request_without_filename) = false.
Proof.
  apply (proj1 (lambda_handler_cors (H := Demo.runtime) (H0 := Demo.presigner)
                  (Some (lit "uploads")) Demo.request_without_filename)).
  reflexivity.
Defined.

End GetPresignedURLSpec.

(* ===================================================================== *)
(** * [FileProcessor]: further properties of the records and of the runs *)
(* ===================================================================== *)
Module FileProcessorMore.
Import Py PyFacts FileProcessor FileProcessorSpec.

Section Records.
Context `{Runtime}.

(** X1. The record stored for an object describes that object: FileSize is
    the number of bytes of the body that was read (decoding and encoding
    back lose nothing), S3Key and SourceBucket are the key and the bucket
    of the notification, OriginalFileName is the key cut at its first
    ['-'], and ProcessingTimestamp is the clock reading of the extractor. *)
Theorem stored_record_describes_object (b k now text : pystr) (raw : list N)
    (md : gmap pystr pyval) :
  decode_utf8 raw = inr text ->
  extract_metadata text k now = inr md ->
  stored b text md !! lit "FileSize" = Some (PInt (Z.of_nat (length raw)))
  /\ stored b text md !! lit "S3Key" = Some (PStr k)
  /\ stored b text md !! lit "SourceBucket" = Some (PStr b)
  /\ stored b text md !! lit "OriginalFileName"
     = Some (PStr (original_filename_of k))
  /\ stored b text md !! lit "ProcessingTimestamp" = Some (PStr now).
Proof.
  intros Hdec Hext.
  assert (Hlen : utf8_len text = Some (N.of_nat (length raw))).
  { unfold decode_utf8 in Hdec. destruct (utf8_decode raw) eqn:Hd; [| done].
    injection Hdec as <-. by apply utf8_decode_len. }
  unfold extract_metadata, encoded_len in Hext.
  destruct (job_id_of text) as [e|v]; [done |].
  rewrite Hlen in Hext. simpl in Hext. injection Hext as <-.
  unfold stored, with_validation.
  rewrite nat_N_Z. repeat split; by map_lookup.
Qed.

(** X3. In a stored record the status and the message agree: VALID goes
    with "Valid" and non-empty content, INVALID goes with "File is empty"
    exactly for empty content and with the missing-keyword message
    otherwise. *)
Theorem stored_status_matches_message (b text : pystr) (md : gmap pystr pyval) :
  (stored b text md !! lit "ValidationStatus" = Some (PStr (lit "VALID"))
   /\ stored b text md !! lit "ValidationMessage" = Some (PStr (lit "Valid"))
   /\ text <> [])
  \/ (stored b text md !! lit "ValidationStatus" = Some (PStr (lit "INVALID"))
      /\ ((stored b text md !! lit "ValidationMessage"
           = Some (PStr (lit "File is empty")) /\ text = [])
          \/ (stored b text md !! lit "ValidationMessage"
              = Some (PStr (lit "Content missing 'job_id' keyword"))
              /\ text <> []))).
Proof.
  unfold stored, with_validation, validate_file_content.
  destruct text as [|c text].
  - right. simpl. split; [by map_lookup |]. left. split; [by map_lookup | done].
  - destruct (contains _ _); simpl.
    + left. repeat split; try done; by map_lookup.
    + right. split; [by map_lookup |]. right. split; [by map_lookup | done].
Qed.

(** X2. On content made of ASCII characters only, the validator accepts
    exactly the content in which "job_id" occurs in some mix of upper and
    lower case. *)
Theorem validate_ascii_content (content : pystr) :
  Forall (fun c => c < 128) content ->
  (fst (validate_file_content content) = true
   <-> exists pre w post,
         content = pre ++ w ++ post /\ ascii_lower <$> w = lit "job_id").
Proof.
  intros Hascii.
  assert (Hlow : py_lower content = ascii_lower <$> content).
  { unfold py_lower, lower.
    pose proof (lower_from_ascii unicode_lower content [] [] Hascii) as Hl.
    rewrite !app_nil_r in Hl. exact Hl. }
  assert (Hval : fst (validate_file_content content) = true
                 <-> content <> [] /\ contains (lit "job_id") (py_lower content) = true).
  { unfold validate_file_content. destruct content as [|c content].
    - simpl. split; [discriminate | by intros [? _]].
    - destruct (contains _ _); simpl; split; try done.
      by intros [_ ?]. }
  rewrite Hval, Hlow, contains_spec. split.
  - intros [_ (x & y & Hxy)].
    apply fmap_app_inv in Hxy as (pre & rest & _ & Hrest & ->).
    symmetry in Hrest.
    apply fmap_app_inv in Hrest as (w & post & Hw & _ & ->).
    by exists pre, w, post.
  - intros (pre & w & post & -> & Hw). split.
    + destruct w; [discriminate |]. by destruct pre.
    + exists (ascii_lower <$> pre), (ascii_lower <$> post).
      by rewrite !fmap_app, Hw.
Qed.

(** X4. The two kinds of record do not have the same keys: the record of a
    processed file carries its time under "ProcessingTimestamp" and has no
    "Timestamp"; the failure record carries it under "Timestamp" and has
    no "ProcessingTimestamp". The other seven keys are common to both. *)
Theorem record_keys (b k now text : pystr) (md : gmap pystr pyval)
    (e : exn) (size : Z) :
  extract_metadata text k now = inr md ->
  dom (stored b text md)
  = list_to_set (lit <$> ["JobId"; "OriginalFileName"; "S3Key"; "FileSize";
                          "ValidationStatus"; "ValidationMessage";
                          "SourceBucket"; "ProcessingTimestamp"]%string)
  /\ dom (failure_metadata b k now e size)
     = list_to_set (lit <$> ["JobId"; "OriginalFileName"; "S3Key"; "FileSize";
                             "ValidationStatus"; "ValidationMessage";
                             "SourceBucket"; "Timestamp"]%string).
Proof.
  intros Hext. unfold extract_metadata in Hext.
  destruct (job_id_of text) as [?|v]; [done |].
  destruct (encoded_len text) as [?|n]; [done |].
  simpl in Hext. injection Hext as <-.
  unfold stored, with_validation, failure_metadata.
  rewrite !dom_insert_L, dom_empty_L. simpl. split; set_solver.
Qed.
End Records.

Lemma stored_record_describes_object_witness :
  exists md,
    extract_metadata (H := Demo.runtime) Demo.doc_J1 (lit "abc-report.csv")
      (lit "2025-01-01T00:00:00") = inr md
    /\ stored (H := Demo.runtime) (lit "uploads") Demo.doc_J1 md !! lit "FileSize"
       = Some (PInt 16).
Proof.
  eexists. split; [reflexivity |].
  apply (proj1 (stored_record_describes_object (H := Demo.runtime)
                  (lit "uploads") (lit "abc-report.csv") (lit "2025-01-01T00:00:00")
                  Demo.doc_J1 Demo.doc_J1 _ eq_refl eq_refl)).
Defined.

Lemma validate_ascii_content_witness :
  fst (validate_file_content (H := Demo.runtime) (lit "id: Job_ID=7")) = true.
Proof.
  apply (proj2 (validate_ascii_content (H := Demo.runtime) (lit "id: Job_ID=7")
                  ltac:(repeat constructor))).
  exists (lit "id: "), (lit "Job_ID"), (lit "=7"). split; reflexivity.
Defined.

Lemma record_keys_witness :
  exists md,
    extract_metadata (H := Demo.runtime) Demo.doc_J1 (lit "abc-report.csv")
      (lit "2025-01-01T00:00:00") = inr md
    /\ dom (failure_metadata (lit "uploads") (lit "abc-report.csv")
              (lit "2025-01-01T00:00:00") Demo.unavailable 0)
       = list_to_set (lit <$> ["JobId"; "OriginalFileName"; "S3Key"; "FileSize";
                               "ValidationStatus"; "ValidationMessage";
                               "SourceBucket"; "Timestamp"]%string).
Proof.
  eexists. split; [reflexivity |].
  apply (proj2 (record_keys (H := Demo.runtime)
                  (lit "uploads") (lit "abc-report.csv") (lit "2025-01-01T00:00:00")
                  Demo.doc_J1 _ Demo.unavailable 0 eq_refl)).
Defined.

Section Runs.
Context `{Runtime} `{Aws}.
Variables (quarantine table : pystr).

(** X5. Only the first record of a batch is processed: the records after
    it change neither the outcome nor the calls. *)
Theorem lambda_handler_first_record_only (d : gmap pystr pyval)
    (r : pyval) (rest : list pyval) :
  lambda_handler quarantine table (PDict (<[lit "Records" := PList (r :: rest)]> d))
  = lambda_handler quarantine table (PDict (<[lit "Records" := PList [r]]> d)).
Proof.
  unfold lambda_handler, first_record. simpl.
  rewrite !lookup_insert_eq. reflexivity.
Qed.

(** X6. When ["Records"] is present but is not a list: a value that counts
    as false ([null], [false], [0], [""], [{}]) is answered like an empty
    list, with the 400 response; any other value makes one of the
    subscripts of lines 88-89 raise, before any call is issued. *)
Theorem lambda_handler_records_not_a_list (d : gmap pystr pyval) (v : pyval) :
  d !! lit "Records" = Some v ->
  (forall l, v <> PList l) ->
  (truthy v = false ->
   lambda_handler quarantine table (PDict d) = (Returned no_records_response, []))
  /\ (truthy v = true ->
      exists e, lambda_handler quarantine table (PDict d) = (Raised e, [])).
Proof.
  intros Hd Hv. unfold lambda_handler, first_record. simpl. rewrite Hd. simpl.
  split; intros Ht; rewrite Ht; simpl; [done |].
  destruct v as [| [|] | z | f | [|c s] | l | rec]; try done;
    try (eexists; reflexivity).
  by destruct (Hv l).
Qed.

(** X7. The calls of a run, whatever AWS answers: the read of the notified
    object comes first and is the only read; one or two [put_item] follow
    (the file's record, the failure record, or both), all on the
    configured table; at most one [copy_object], from the notified object
    to ["invalid/" + key] in the quarantine bucket; no [delete_object]. *)
Theorem process_log_shape (b k : pystr) :
  (exists r rest,
     snd (process quarantine table b k) = got b k r :: rest
     /\ count is_get rest = 0%nat)
  /\ (1 <= count is_put (snd (process quarantine table b k)) <= 2)%nat
  /\ (count is_copy (snd (process quarantine table b k)) <= 1)%nat
  /\ count is_delete (snd (process quarantine table b k)) = 0%nat
  /\ Forall (fun ev => is_copy ev = true ->
                       exists r, ev = copied quarantine b k r)
       (snd (process quarantine table b k))
  /\ Forall (fun ev => is_put ev = true ->
                       exists item r, ev = put table item r)
       (snd (process quarantine table b k)).
Proof.
  pose proof (process_finishes quarantine table b k) as R.
  inversion R as [ e Hg E | raw' e Hg Hd E | raw' text' n e Hg Hd Hn H100 E
                 | raw' text' n e Hg Hd Hn He E
                 | raw' text' n md' e Hg Hd Hn He Hp E
                 | raw' text' n md' jid e Hg Hd Hn He Hp Hj H115 E
                 | raw' text' n md' e Hg Hd Hn He Hp Hv H119 E
                 | raw' text' n md' e Hg Hd Hn He Hp Hv Hc E
                 | raw' text' md' job_id Hg Hd He Hp Hc Hj E ];
    try destruct (fst (validate_file_content text')) eqn:Hvalid;
    unfold count; simpl;
    (split; [eexists _, _; split; [reflexivity | done] |]);
    (split; [lia |]); (split; [lia |]); (split; [done |]);
    split;
    repeat (apply Forall_cons; split;
            [simpl; intros Hev;
             first [discriminate Hev | eexists; reflexivity
                   | eexists _, _; reflexivity] |]);
    by apply Forall_nil.
Qed.

(** X8. When an exception leaves the handler, nothing has been written:
    the run issued no [put_item], no [copy_object] and no [delete_object],
    and at most one call in all (the [get_object] that a key of the
    wrong type makes fail before line 155 raises). The 400 response
    comes with no call at all. *)
Theorem lambda_handler_raises_before_writing (event : pyval) :
  (forall e, fst (lambda_handler quarantine table event) = Raised e ->
             count is_write (snd (lambda_handler quarantine table event)) = 0%nat
             /\ (length (snd (lambda_handler quarantine table event)) <= 1)%nat)
  /\ (forall r, fst (lambda_handler quarantine table event) = Returned r ->
                statusCode r = 400%Z ->
                snd (lambda_handler quarantine table event) = []).
Proof.
  unfold lambda_handler.
  destruct (first_record event) as [e | [[name key] |]];
    [by split; [intros; simpl; split; [| lia] | ] | | by split].
  destruct (py_print (line_93 name key)) as [e | []];
    [by split; [intros; simpl; split; [| lia] | ] |].
  assert (Hrejected :
            (forall e, fst (process_rejected table name key) = Raised e ->
               count is_write (snd (process_rejected table name key)) = 0%nat
               /\ (length (snd (process_rejected table name key)) <= 1)%nat)
            /\ (forall r, fst (process_rejected table name key) = Returned r ->
                  statusCode r = 400%Z ->
                  snd (process_rejected table name key) = [])).
  { unfold process_rejected. destruct (original_filename key); simpl.
    - split; [intros; split; [done | lia] | done].
    - split; [done | by intros r [= <-]]. }
  destruct name as [| | | | bucket | |]; try exact Hrejected.
  destruct key as [| | | | key | |]; try exact Hrejected.
  pose proof (process_finishes quarantine table bucket key) as R.
  inversion R; repeat split; try done; intros r [= <-]; done.
Qed.

(** X14. An object that cannot be read, or whose bytes are not UTF-8, is
    neither validated nor quarantined: the run is the read followed by
    the [put_item] of the failure record, with FileSize 0, and the answer
    is 500 with the text of the exception. *)
Theorem process_unreadable_object (b k : pystr) (e : exn) :
  get_object_body [] b k = inl e
  \/ (exists raw, get_object_body [] b k = inr raw /\ decode_utf8 raw = inl e) ->
  exists r,
    process quarantine table b k
    = (Returned (failure_response k e),
       [got b k r;
        put table (failure_record b k [got b k r] e 0)
          (put_item [got b k r] (failure_record b k [got b k r] e 0))])
    /\ failure_record b k [got b k r] e 0 !! lit "FileSize" = Some (PInt 0)
    /\ count is_copy (snd (process quarantine table b k)) = 0%nat.
Proof.
  intros Hcase.
  assert (Hsize : forall tr, failure_record b k tr e 0 !! lit "FileSize"
                             = Some (PInt 0)).
  { intros. unfold failure_record, failure_metadata. by map_lookup. }
  pose proof (process_finishes quarantine table b k) as R.
  destruct Hcase as [Hget | (raw & Hget & Hdec)];
    inversion R as [ e' Hg E | raw' e' Hg Hd E | raw' text' n e' Hg Hd Hn H100 E
                   | raw' text' n e' Hg Hd Hn He E
                   | raw' text' n md' e' Hg Hd Hn He Hp E
                   | raw' text' n md' jid e' Hg Hd Hn He Hp Hj H115 E
                   | raw' text' n md' e' Hg Hd Hn He Hp Hv H119 E
                   | raw' text' n md' e' Hg Hd Hn He Hp Hv Hc E
                   | raw' text' md' job_id Hg Hd He Hp Hc Hj E ];
    try congruence.
  - assert (e' = e) as -> by congruence.
    exists (Some e). unfold failed. simpl. by rewrite Hsize.
  - assert (e' = e) as -> by congruence.
    exists None. unfold failed. simpl. by rewrite Hsize.
Qed.

(** X15. When the quarantine copy raises (the key, the JobId and the name
    of the quarantine bucket being well-formed text, so that the
    [print]s before it go through), the rejected file ends up with two
    [put_item] calls: its INVALID record, already stored, and then the
    failure record, whose JobId is the key; the answer is 500. *)
Theorem process_copy_raises (b k raw text j : pystr) (md : gmap pystr pyval)
    (e : exn) :
  get_object_body [] b k = inr raw ->
  decode_utf8 raw = inr text ->
  extract_metadata text k (now_isoformat [got b k None]) = inr md ->
  printable k ->
  md !! lit "JobId" = Some (PStr j) ->
  printable j ->
  printable quarantine ->
  put_item [got b k None] (stored b text md) = None ->
  fst (validate_file_content text) = false ->
  copy_object [got b k None; put table (stored b text md) None]
    quarantine b k (lit "invalid/" ++ k) = Some e ->
  exists failure r,
    process quarantine table b k
    = (Returned (failure_response k e),
       [got b k None; put table (stored b text md) None;
        copied quarantine b k (Some e); put table failure r])
    /\ stored b text md !! lit "ValidationStatus" = Some (PStr (lit "INVALID"))
    /\ failure !! lit "ValidationStatus" = Some (PStr (lit "PROCESSING_FAILED"))
    /\ failure !! lit "JobId" = Some (PStr k).
Proof.
  intros Hget Hdec Hext Hk Hid Hpj Hq Hput Hvalid Hcopy.
  destruct (prints_go_through quarantine b k text j md Hk Hid Hpj (fun _ => Hq))
    as (P100 & P115 & P119).
  pose proof (process_finishes quarantine table b k) as R.
  inversion R as [ e' Hg E | raw' e' Hg Hd E | raw' text' n e' Hg Hd Hn H100 E
                 | raw' text' n e' Hg Hd Hn He E
                 | raw' text' n md' e' Hg Hd Hn He Hp E
                 | raw' text' n md' jid e' Hg Hd Hn He Hp Hj H115 E
                 | raw' text' n md' e' Hg Hd Hn He Hp Hv H119 E
                 | raw' text' n md' e' Hg Hd Hn He Hp Hv Hc E
                 | raw' text' md' job_id Hg Hd He Hp Hc Hj E ];
    try congruence.
  - assert (text' = text) as -> by congruence.
    assert (md' = md) as -> by congruence.
    specialize (P115 _ Hj). congruence.
  - specialize (P119 Hvalid). congruence.
  - assert (text' = text) as -> by congruence.
    assert (md' = md) as -> by congruence.
    assert (e' = e) as -> by congruence.
    eexists _, _. split; [reflexivity |].
    split; [unfold stored, with_validation; rewrite Hvalid; by map_lookup |].
    unfold failure_record, failure_metadata. split; by map_lookup.
  - assert (text' = text) as -> by congruence.
    assert (md' = md) as -> by congruence.
    specialize (Hc Hvalid). congruence.
Qed.
(** X16. When the JobId read from the document holds a lone surrogate,
    the [print] of line 115 raises after the file's record has been
    stored: no quarantine copy is made, even for rejected content, the
    failure record is written as well, and the answer is 500. *)
Theorem process_unprintable_job_id (b k raw text j : pystr)
    (md : gmap pystr pyval) :
  get_object_body [] b k = inr raw ->
  decode_utf8 raw = inr text ->
  extract_metadata text k (now_isoformat [got b k None]) = inr md ->
  printable k ->
  md !! lit "JobId" = Some (PStr j) ->
  ~ printable j ->
  put_item [got b k None] (stored b text md) = None ->
  exists e failure r,
    py_print (line_115 (PStr j) k) = inl e
    /\ process quarantine table b k
       = (Returned (failure_response k e),
          [got b k None; put table (stored b text md) None;
           put table failure r])
    /\ failure !! lit "ValidationStatus" = Some (PStr (lit "PROCESSING_FAILED"))
    /\ failure !! lit "JobId" = Some (PStr k).
Proof.
  intros Hget Hdec Hext Hk Hid Hnp Hput.
  assert (Hsid : stored b text md !! lit "JobId" = Some (PStr j))
    by (by rewrite stored_job_id).
  destruct (py_print (line_115 (PStr j) k)) as [e|[]] eqn:H115;
    [| by apply py_print_returns, line_115_printable in H115 as [Hj _]].
  assert (exists n, utf8_len text = Some n) as [n Hn].
  { unfold decode_utf8 in Hdec. destruct (utf8_decode raw) eqn:Hd; [| done].
    injection Hdec as <-. eauto using utf8_decode_len. }
  exists e, (failure_record b k [got b k None; put table (stored b text md) None]
               e (Z.of_N n)).
  eexists. split; [done |]. split.
  - unfold got in *.
    unfold process, try_block, seq, s3_get_object, lift, assign_file_content,
      datetime_now.
    cbn [log file_content record_call app].
    rewrite Hget, Hdec.
    rewrite (py_print_printable _ (proj2 (line_100_printable k text) Hk)).
    pose proof (py_print_printable _ (line_104_printable k text Hk)) as H104.
    destruct (validate_file_content text) as [v m] eqn:Hv.
    simpl in H104. rewrite H104. cbn [log file_content]. rewrite Hext.
    fold (with_validation md v m b).
    assert (with_validation md v m b = stored b text md) as ->
      by (unfold stored; by rewrite Hv).
    unfold dynamodb_put_item. cbn [log file_content record_call app].
    rewrite Hput. unfold py_getitem. rewrite Hsid, H115.
    match goal with
    | |- context [except_block _ _ _ ?x ?st] =>
        rewrite (except_block_failed table _ _ x st n Hn)
    end.
    reflexivity.
  - unfold failure_record, failure_metadata. split; by map_lookup.
Qed.
End Runs.

Lemma process_unprintable_job_id_witness :
  count is_put
    (snd (process (H := Demo.surrogate_runtime)
            (H0 := Demo.aws (inr Demo.doc_surrogate) None None)
            Demo.quarantine Demo.table (lit "uploads") (lit "abc-report.csv")))
  = 2%nat.
Proof.
  edestruct (process_unprintable_job_id (H := Demo.surrogate_runtime)
               (H0 := Demo.aws (inr Demo.doc_surrogate) None None)
               Demo.quarantine Demo.table (lit "uploads") (lit "abc-report.csv")
               Demo.doc_surrogate Demo.doc_surrogate [55296])
    as (e & failure & r & _ & Hrun & _);
    [reflexivity | reflexivity | reflexivity | by eexists | reflexivity
    | by intros [? [=]] | reflexivity |].
  rewrite Hrun. reflexivity.
Defined.

Lemma process_unreadable_object_witness :
  count is_copy
    (snd (process (H := Demo.runtime) (H0 := Demo.aws (inr [255]) None None)
            Demo.quarantine Demo.table (lit "uploads") (lit "abc-image.png")))
  = 0%nat.
Proof.
  edestruct (process_unreadable_object (H := Demo.runtime)
               (H0 := Demo.aws (inr [255]) None None)
               Demo.quarantine Demo.table (lit "uploads") (lit "abc-image.png"))
    as (r & _ & _ & Hcopy);
    [right; exists [255]; split; reflexivity | exact Hcopy].
Defined.

Lemma process_copy_raises_witness :
  count is_put
    (snd (process (H := Demo.runtime)
            (H0 := Demo.aws (inr []) None (Some Demo.unavailable))
            Demo.quarantine Demo.table (lit "uploads") (lit "abc-bad.csv")))
  = 2%nat.
Proof.
  edestruct (process_copy_raises (H := Demo.runtime)
               (H0 := Demo.aws (inr []) None (Some Demo.unavailable))
               Demo.quarantine Demo.table (lit "uploads") (lit "abc-bad.csv") [] []
               (lit "UNKNOWN"))
    as (failure & r & Hrun & _);
    [reflexivity | reflexivity | reflexivity | by eexists | reflexivity
    | by eexists | by eexists | reflexivity | reflexivity | reflexivity |].
  rewrite Hrun. reflexivity.
Defined.

Lemma lambda_handler_records_not_a_list_witness :
  lambda_handler (H := Demo.runtime) (H0 := Demo.aws (inr []) None None)
    Demo.quarantine Demo.table Demo.null_records
  = (Returned (no_records_response (H := Demo.runtime)), []).
Proof.
  apply (proj1 (lambda_handler_records_not_a_list (H := Demo.runtime)
                  (H0 := Demo.aws (inr []) None None)
                  Demo.quarantine Demo.table _ PNone
                  (lookup_insert_eq _ _ _) ltac:(discriminate)));
    reflexivity.
Defined.


End FileProcessorMore.

(* ===================================================================== *)
(** * [GetPresignedURL]: which request gets which response *)
(* ===================================================================== *)
Module GetPresignedURLMore.
Import Py PyFacts GetPresignedURL.

Section Endpoint.
Context `{Runtime} `{Aws}.

Lemma configured (bucket : pystr) (event : pyval) :
  bucket <> [] ->
  lambda_handler (Some bucket) event =
    match try_block bucket event with
    | inr r => r
    | inl e =>
        if is_JSONDecodeError e then
          Response 400 content_type_only (message (lit "Invalid JSON in request body"))
        else if is_KeyError e then
          Response 400 content_type_only
            (message (lit "Missing expected key: " ++ exn_str e))
        else internal_error_response e
    end.
Proof. intros Hb. unfold lambda_handler. by destruct bucket. Qed.

(** X10. With the bucket configured, the endpoint answers 200 exactly when
    the event has a text body that parses to a JSON object whose
    ["filename"] counts as true and the presigner returns a URL; the URL
    is asked for [put_object] on the configured bucket, for 300 seconds,
    under the key [<uuid4>-<str(filename)>], and the response carries that
    URL and that key. The type of the filename is not checked. *)
Theorem lambda_handler_success (bucket : pystr) (event : pyval) :
  bucket <> [] ->
  (statusCode (lambda_handler (Some bucket) event) = 200%Z ->
   exists d s doc name url,
     event = PDict d
     /\ d !! lit "body" = Some (PStr s)
     /\ json_loads s = inr (PDict doc)
     /\ doc !! lit "filename" = Some name
     /\ truthy name = true
     /\ generate_presigned_url (lit "put_object") bucket (issued_key name) 300
        = inr url)
  /\ (forall d s doc name url,
        event = PDict d ->
        d !! lit "body" = Some (PStr s) ->
        json_loads s = inr (PDict doc) ->
        doc !! lit "filename" = Some name ->
        truthy name = true ->
        generate_presigned_url (lit "put_object") bucket (issued_key name) 300
        = inr url ->
        lambda_handler (Some bucket) event
        = success_response url (issued_key name)).
Proof.
  intros Hb. rewrite (configured bucket event Hb). split.
  - unfold try_block, py_getitem.
    destruct event as [| | | | | |d]; simpl; try done.
    destruct (d !! lit "body") as [raw|] eqn:Hbody; simpl; [| done].
    destruct raw as [| | | | s | |]; simpl; try done.
    destruct (json_loads s) as [e|body] eqn:Hparse; simpl.
    { destruct (is_JSONDecodeError e); [done |]. by destruct (is_KeyError e). }
    destruct body as [| | | | | |doc]; simpl; try done.
    destruct (doc !! lit "filename") as [name|] eqn:Hname; simpl; [| done].
    destruct (truthy name) eqn:Htruthy; simpl; [| done].
    destruct (generate_presigned_url _ bucket _ 300) as [e|url] eqn:Hurl; simpl.
    { destruct (is_JSONDecodeError e); [done |]. by destruct (is_KeyError e). }
    intros _. by exists d, s, doc, name, url.
  - intros d s doc name url -> Hbody Hparse Hname Htruthy Hurl.
    unfold try_block. simpl. rewrite Hbody. simpl. rewrite Hparse. simpl.
    rewrite Hname. simpl. rewrite Htruthy. simpl.
    unfold issued_key in Hurl. simpl in Hurl. by rewrite Hurl.
Qed.

(** X11. With the bucket configured, three kinds of request are answered
    400, whatever the presigner would do: an event without ["body"]
    ("Missing expected key"), a body that is not JSON ("Invalid JSON in
    request body"), and a JSON object whose ["filename"] is absent or
    counts as false, such as [""], [null] or [0] ("Missing filename in
    request body"). *)
Theorem lambda_handler_bad_request (bucket : pystr) (d : gmap pystr pyval) :
  bucket <> [] ->
  (d !! lit "body" = None ->
   lambda_handler (Some bucket) (PDict d)
   = Response 400 content_type_only
       (message (lit "Missing expected key: "
                 ++ error_text OpSubscript (PStr (lit "body")))))
  /\ (forall s e,
        d !! lit "body" = Some (PStr s) ->
        json_loads s = inl e ->
        is_JSONDecodeError e = true ->
        lambda_handler (Some bucket) (PDict d)
        = Response 400 content_type_only
            (message (lit "Invalid JSON in request body")))
  /\ (forall s doc,
        d !! lit "body" = Some (PStr s) ->
        json_loads s = inr (PDict doc) ->
        truthy (default PNone (doc !! lit "filename")) = false ->
        lambda_handler (Some bucket) (PDict d)
        = Response 400 content_type_only
            (message (lit "Missing filename in request body"))).
Proof.
  intros Hb. rewrite (configured bucket _ Hb). unfold try_block. simpl.
  repeat split.
  - intros Hbody. by rewrite Hbody.
  - intros s e Hbody Hparse He. rewrite Hbody. simpl. rewrite Hparse. simpl.
    by rewrite He.
  - intros s doc Hbody Hparse Hname. rewrite Hbody. simpl. rewrite Hparse.
    simpl. by rewrite Hname.
Qed.

(** X12. With the bucket configured, three kinds of request end in the
    catch-all 500: a body that is not text, such as the [null] of a
    request without body ([json.loads] raises [TypeError]); a body that is
    JSON but not an object ([.get] raises [AttributeError]); and a
    presigner that raises anything but [KeyError] or [JSONDecodeError].
    The details of the response are [str] of the exception. *)
Theorem lambda_handler_internal_error (bucket : pystr) (d : gmap pystr pyval) :
  bucket <> [] ->
  (forall v,
     d !! lit "body" = Some v ->
     match v with PStr _ => False | _ => True end ->
     lambda_handler (Some bucket) (PDict d)
     = internal_error_response (Exn TypeError (error_text OpLoads v)))
  /\ (forall s v,
        d !! lit "body" = Some (PStr s) ->
        json_loads s = inr v ->
        match v with PDict _ => False | _ => True end ->
        lambda_handler (Some bucket) (PDict d)
        = internal_error_response (Exn AttributeError (error_text OpGet v)))
  /\ (forall s doc name e,
        d !! lit "body" = Some (PStr s) ->
        json_loads s = inr (PDict doc) ->
        doc !! lit "filename" = Some name ->
        truthy name = true ->
        generate_presigned_url (lit "put_object") bucket (issued_key name) 300
        = inl e ->
        is_JSONDecodeError e = false ->
        is_KeyError e = false ->
        lambda_handler (Some bucket) (PDict d) = internal_error_response e).
Proof.
  intros Hb. rewrite (configured bucket _ Hb). unfold try_block. simpl.
  repeat split.
  - intros v Hbody Hv. rewrite Hbody. by destruct v.
  - intros s v Hbody Hparse Hv. rewrite Hbody. simpl. rewrite Hparse.
    by destruct v.
  - intros s doc name e Hbody Hparse Hname Htruthy Hurl Hj Hk.
    rewrite Hbody. simpl. rewrite Hparse. simpl. rewrite Hname. simpl.
    rewrite Htruthy. simpl. unfold issued_key in Hurl. simpl in Hurl.
    rewrite Hurl. simpl.
    by rewrite Hj, Hk.
Qed.

(** X13. What the processing side recovers from a key this endpoint
    issued. The key is [<uuid4>-<filename>] and recovery cuts at the
    first ['-']: when the token has no ['-'] the file name comes back;
    when it has one, as every UUID does, what comes back is the rest of
    the token followed by ['-'] and the file name, never the file name
    itself. *)
Theorem issued_key_recovery (name : pyval) :
  (N_of_ascii "-" ∉ uuid4 ->
   FileProcessor.original_filename_of (issued_key name) = py_str name)
  /\ (forall g rest,
        uuid4 = g ++ lit "-" ++ rest ->
        N_of_ascii "-" ∉ g ->
        FileProcessor.original_filename_of (issued_key name)
        = rest ++ lit "-" ++ py_str name
        /\ FileProcessor.original_filename_of (issued_key name) <> py_str name).
Proof.
  unfold issued_key. split.
  - intros Hn. by apply (FileProcessorSpec.original_filename_cut uuid4).
  - intros g rest -> Hn.
    assert (Hcut : FileProcessor.original_filename_of
                     ((g ++ lit "-" ++ rest) ++ lit "-" ++ py_str name)
                   = rest ++ lit "-" ++ py_str name).
    { rewrite <- app_assoc.
      apply (FileProcessorSpec.original_filename_cut g _ Hn). }
    split; [exact Hcut |]. rewrite Hcut. intros Heq.
    apply (f_equal length) in Heq. rewrite !length_app in Heq. simpl in Heq. lia.
Qed.
End Endpoint.

Lemma lambda_handler_success_witness :
  lambda_handler (H := Demo.upload_runtime) (H0 := Demo.presigner)
    (Some (lit "uploads")) Demo.upload_request
  = success_response (H := Demo.upload_runtime)
      (lit "https://uploads.s3.amazonaws.com/123e4567-e89b-42d3-a456-426614174000-report.csv")
      (lit "123e4567-e89b-42d3-a456-426614174000-report.csv").
Proof.
  apply (proj2 (lambda_handler_success (H := Demo.upload_runtime)
                  (H0 := Demo.presigner) (lit "uploads") Demo.upload_request
                  ltac:(discriminate))
           _ Demo.upload_body _ (PStr (lit "report.csv")) _ eq_refl
           (lookup_insert_eq _ _ _) eq_refl (lookup_insert_eq _ _ _)
           eq_refl eq_refl).
Defined.

Lemma lambda_handler_bad_request_witness :
  lambda_handler (H := Demo.runtime) (H0 := Demo.presigner)
    (Some (lit "uploads")) Demo.request_without_filename
  = Response 400 content_type_only
      (message (H := Demo.runtime) (lit "Missing filename in request body")).
Proof.
  apply (proj2 (proj2 (lambda_handler_bad_request (H := Demo.runtime)
                         (H0 := Demo.presigner) (lit "uploads") _
                         ltac:(discriminate)))
           (lit "{}") ∅ (lookup_insert_eq _ _ _) eq_refl eq_refl).
Defined.

Lemma lambda_handler_internal_error_witness :
  lambda_handler (H := Demo.runtime) (H0 := Demo.presigner)
    (Some (lit "uploads")) Demo.request_with_null_body
  = internal_error_response (H := Demo.runtime)
      (Exn TypeError (lit "<error>")).
Proof.
  apply (proj1 (lambda_handler_internal_error (H := Demo.runtime)
                  (H0 := Demo.presigner) (lit "uploads") _
                  ltac:(discriminate))
           PNone (lookup_insert_eq _ _ _) I).
Defined.

Lemma issued_key_recovery_witness :
  FileProcessor.original_filename_of
    (issued_key (H := Demo.runtime) (PStr (lit "report.csv")))
  = lit "e89b-42d3-a456-426614174000-report.csv".
Proof.
  apply (proj2 (issued_key_recovery (H := Demo.runtime) (PStr (lit "report.csv")))
           (lit "123e4567") (lit "e89b-42d3-a456-426614174000") eq_refl).
  intros Hin. apply list_elem_of_In in Hin. vm_compute in Hin. intuition discriminate.
Defined.

End GetPresignedURLMore.
